(** * Lazorkit React Native example: wallet session manager and session keys

    A shallow embedding of

    - [context/WalletContext.tsx]: the [WalletProvider] operations
      [restoreSession], [clearSession], [connectWallet], [disconnectWallet],
      [signMessage] and [sendTransaction];
    - the SDK-backed copy of [WalletContext.tsx]: its [restoreSession],
      [disconnectWallet] and [sendTransactionHandler], for comparison;
    - [utils/lazorkit.ts]: [validateSessionKeyPermissions].

    React state is an explicit record, the encrypted key-value store
    ([expo-secure-store]) is a finite map, and every operation is a
    computation in a small state-and-exception monad in which the effects
    made before an exception is thrown are kept, as in JavaScript. *)

From Stdlib Require Import ZArith QArith String Ascii List Bool Lia.
From Stdlib Require Import DecimalString.
From stdpp Require Import base gmap strings.
Import ListNotations.

Local Open Scope string_scope.
Local Open Scope list_scope.

(** ** JavaScript numbers

    A [number] is an IEEE double.  The code only compares numbers and tests
    them for truthiness, and both are exact on doubles, so a finite double is
    represented by the rational it denotes. *)

Inductive number : Type :=
| NaN
| NegInf
| Fin (q : Q)
| PosInf.

Definition Qlt_bool (x y : Q) : bool := negb (Qle_bool y x).

(** [a < b] *)
Definition num_lt (a b : number) : bool :=
  match a, b with
  | NaN, _ | _, NaN => false
  | _, NegInf => false
  | NegInf, _ => true
  | PosInf, _ => false
  | Fin _, PosInf => true
  | Fin x, Fin y => Qlt_bool x y
  end.

(** [a > b] *)
Definition num_gt (a b : number) : bool := num_lt b a.

(** [a <= b] *)
Definition num_le (a b : number) : bool :=
  match a, b with
  | NaN, _ | _, NaN => false
  | NegInf, _ => true
  | _, PosInf => true
  | _, NegInf => false
  | PosInf, _ => false
  | Fin x, Fin y => Qle_bool x y
  end.

(** [a >= b] *)
Definition num_ge (a b : number) : bool := num_le b a.

(** [+0], [-0] and [NaN] are the falsy numbers. *)
Definition num_truthy (a : number) : bool :=
  match a with
  | NaN => false
  | Fin q => negb (Qeq_bool q 0)
  | NegInf | PosInf => true
  end.

Definition is_NaN (a : number) : bool :=
  match a with NaN => true | _ => false end.

Definition is_zero (a : number) : bool :=
  match a with Fin q => Qeq_bool q 0 | _ => false end.

Definition num_of_Z (z : Z) : number := Fin (inject_Z z).

(** The empty string is the only falsy string. *)
Definition str_truthy (s : string) : bool :=
  match s with EmptyString => false | _ => true end.

(** ** Values of the data model *)

(** [PublicKey] of [@solana/web3.js]: a 256-bit number, compared by
    [equals]. *)
Record PublicKey : Type := mkPublicKey { bn : N }.

Definition equals (a b : PublicKey) : bool := N.eqb (bn a) (bn b).

Inductive TxType : Type := TxSend | TxReceive | TxSwap | TxBilling.
Inductive TxStatus : Type := Pending | Confirmed | Failed.

Record Transaction : Type := mkTransaction {
  id : string;
  signature : string;
  type : TxType;
  amount : number;
  token : string;
  recipient : option string;
  timestamp : number;
  status : TxStatus
}.

(** What a [throw] carries: an [Error] object with its message, or some
    other value (the handlers test [err instanceof Error]). *)
Inductive thrown : Type :=
| Error (message : string)
| NonError.

Inductive outcome (A : Type) : Type :=
| Returned (a : A)
| Thrown (e : thrown).
Arguments Returned {A} a.
Arguments Thrown {A} e.

(** ** The platform

    Library functions the provider calls and whose code is not part of the
    repository: the string constructor of [PublicKey], [parseInt],
    [JSON.parse] (at the declared type [Transaction[]]) and
    [JSON.stringify].  [PublicKey] and [JSON.parse] throw on malformed
    input, in particular on the empty string. *)

Class Platform : Type := {
  new_PublicKey : string -> outcome PublicKey;
  parseInt : string -> number;
  JSON_parse : string -> outcome (list Transaction);
  JSON_stringify : list Transaction -> string;
  new_PublicKey_empty : exists e, new_PublicKey "" = Thrown e;
  JSON_parse_empty : exists e, JSON_parse "" = Thrown e
}.

(** A syntactically valid chain address is a string [PublicKey] accepts. *)
Definition valid_address `{Platform} (a : string) : bool :=
  match new_PublicKey a with Returned _ => true | Thrown _ => false end.

(** ** React state of [WalletProvider] *)

Record State : Type := mkState {
  walletAddress : option string;
  publicKey : option PublicKey;
  isConnected : bool;
  isLoading : bool;
  error : option string;
  transactions : list Transaction;
  lastActivity : option number
}.

(** The [useState] initial values. *)
Definition initialState : State :=
  {| walletAddress := None; publicKey := None; isConnected := false;
     isLoading := false; error := None; transactions := [];
     lastActivity := None |}.

(** ** The environment *)

Inductive ExternalCall : Type :=
| GetItem (key : string)
| SetItem (key value : string)
| DeleteItem (key : string)
| SdkDisconnect
| SdkSignAndExecute (recipient : PublicKey) (amount : number).

(** [secureStore]: the persisted keys.  [storeFaults]: the results of the
    coming [SecureStore] calls, [Some e] for a promise that rejects with [e];
    calls past the end of the list succeed.  [sdkFaults]: the same for the
    coming calls to the wallet SDK.  [clock]: the coming readings of
    [Date.now()].  [randoms]: the coming values of
    [Math.random().toString(36)].  [externalCalls]: the [SecureStore] and
    SDK calls made so far, latest first. *)
Record World : Type := mkWorld {
  secureStore : gmap string string;
  storeFaults : list (option thrown);
  sdkFaults : list (option thrown);
  clock : list Z;
  randoms : list string;
  externalCalls : list ExternalCall
}.

(** No coming [SecureStore] call is rejected. *)
Definition reliable (w : World) : Prop :=
  Forall (fun f => f = None) (storeFaults w).

(** ** The monad of operations *)

Definition M (A : Type) : Type := State * World -> outcome A * (State * World).

Definition ret {A} (a : A) : M A := fun c => (Returned a, c).

Definition bind {A B} (m : M A) (k : A -> M B) : M B :=
  fun c =>
    match m c with
    | (Returned a, c') => k a c'
    | (Thrown e, c') => (Thrown e, c')
    end.

Definition throw {A} (e : thrown) : M A := fun c => (Thrown e, c).

Notation "x <- m ;; k" := (bind m (fun x => k))
  (at level 100, m at next level, right associativity).
Notation "m ;; k" := (bind m (fun _ => k))
  (at level 100, right associativity).

(** [try { body } catch (err) { handler err }] *)
Definition try_catch {A} (body : M A) (handler : thrown -> M A) : M A :=
  fun c =>
    match body c with
    | (Returned a, c') => (Returned a, c')
    | (Thrown e, c') => handler e c'
    end.

(** [try { body } finally { fin }] *)
Definition try_finally {A} (body : M A) (fin : M unit) : M A :=
  fun c =>
    match body c with
    | (r, c') =>
        match fin c' with
        | (Returned _, c'') => (r, c'')
        | (Thrown e, c'') => (Thrown e, c'')
        end
    end.

(** [try { body } catch (err) { handler err } finally { fin }] *)
Definition try_catch_finally {A} (body : M A) (handler : thrown -> M A)
    (fin : M unit) : M A :=
  try_finally (try_catch body handler) fin.

Definition lift {A} (o : outcome A) : M A := fun c => (o, c).

Definition getState : M State := fun c => (Returned (fst c), c).

Definition modifyState (f : State -> State) : M unit :=
  fun c => (Returned tt, (f (fst c), snd c)).

(** [if (s) { k s }] on a [string | null]. *)
Definition when_truthy (s : option string) (k : string -> M unit) : M unit :=
  match s with
  | Some v => if str_truthy v then k v else ret tt
  | None => ret tt
  end.

(** *** State setters *)

Definition setWalletAddress (v : option string) : M unit :=
  modifyState (fun s =>
    {| walletAddress := v; publicKey := publicKey s;
       isConnected := isConnected s; isLoading := isLoading s;
       error := error s; transactions := transactions s;
       lastActivity := lastActivity s |}).

Definition setPublicKey (v : option PublicKey) : M unit :=
  modifyState (fun s =>
    {| walletAddress := walletAddress s; publicKey := v;
       isConnected := isConnected s; isLoading := isLoading s;
       error := error s; transactions := transactions s;
       lastActivity := lastActivity s |}).

Definition setIsConnected (v : bool) : M unit :=
  modifyState (fun s =>
    {| walletAddress := walletAddress s; publicKey := publicKey s;
       isConnected := v; isLoading := isLoading s;
       error := error s; transactions := transactions s;
       lastActivity := lastActivity s |}).

Definition setIsLoading (v : bool) : M unit :=
  modifyState (fun s =>
    {| walletAddress := walletAddress s; publicKey := publicKey s;
       isConnected := isConnected s; isLoading := v;
       error := error s; transactions := transactions s;
       lastActivity := lastActivity s |}).

Definition setError (v : option string) : M unit :=
  modifyState (fun s =>
    {| walletAddress := walletAddress s; publicKey := publicKey s;
       isConnected := isConnected s; isLoading := isLoading s;
       error := v; transactions := transactions s;
       lastActivity := lastActivity s |}).

(** [setTransactions] takes an updater, as in
    [setTransactions((prev) => [newTx, ...prev])]. *)
Definition setTransactions (f : list Transaction -> list Transaction) : M unit :=
  modifyState (fun s =>
    {| walletAddress := walletAddress s; publicKey := publicKey s;
       isConnected := isConnected s; isLoading := isLoading s;
       error := error s; transactions := f (transactions s);
       lastActivity := lastActivity s |}).

Definition setLastActivity (v : option number) : M unit :=
  modifyState (fun s =>
    {| walletAddress := walletAddress s; publicKey := publicKey s;
       isConnected := isConnected s; isLoading := isLoading s;
       error := error s; transactions := transactions s;
       lastActivity := v |}).

(** *** Environment primitives *)

Definition nextFault (w : World) : option thrown :=
  match storeFaults w with
  | [] => None
  | f :: _ => f
  end.

(** The world after a [SecureStore] call that left the store as [m]. *)
Definition logged (call : ExternalCall) (m : gmap string string) (w : World)
    : World :=
  {| secureStore := m; storeFaults := tl (storeFaults w);
     sdkFaults := sdkFaults w; clock := clock w; randoms := randoms w;
     externalCalls := call :: externalCalls w |}.

(** A [SecureStore] call: logged, then rejected or applied to the store. *)
Definition storeCall {A} (call : ExternalCall)
    (run : gmap string string -> A * gmap string string) : M A :=
  fun c =>
    let w := snd c in
    match nextFault w with
    | Some e => (Thrown e, (fst c, logged call (secureStore w) w))
    | None =>
        let '(a, m) := run (secureStore w) in
        (Returned a, (fst c, logged call m w))
    end.

Definition getItemAsync (key : string) : M (option string) :=
  storeCall (GetItem key) (fun m => (m !! key, m)).

Definition setItemAsync (key value : string) : M unit :=
  storeCall (SetItem key value) (fun m => (tt, <[key := value]> m)).

Definition deleteItemAsync (key : string) : M unit :=
  storeCall (DeleteItem key) (fun m => (tt, delete key m)).

(** The world after a reading of the clock. *)
Definition tick (w : World) : World :=
  {| secureStore := secureStore w; storeFaults := storeFaults w;
     sdkFaults := sdkFaults w; clock := tl (clock w); randoms := randoms w;
     externalCalls := externalCalls w |}.

(** [Date.now()] *)
Definition Date_now : M Z :=
  fun c => (Returned (hd 0%Z (clock (snd c))), (fst c, tick (snd c))).

(** The world after a draw of [Math.random()]. *)
Definition drawn (w : World) : World :=
  {| secureStore := secureStore w; storeFaults := storeFaults w;
     sdkFaults := sdkFaults w; clock := clock w; randoms := tl (randoms w);
     externalCalls := externalCalls w |}.

(** [Math.random().toString(36)] *)
Definition Math_random_toString36 : M string :=
  fun c => (Returned (hd "0" (randoms (snd c))), (fst c, drawn (snd c))).

(** [s.substr(start, len)] for in-range non-negative arguments. *)
Definition substr (start len : nat) (s : string) : string :=
  String.substring start len s.

(** [n.toString()] of an integer. *)
Definition Z_toString (z : Z) : string :=
  NilZero.string_of_int (Z.to_int z).

(** [err instanceof Error ? err.message : fallback] *)
Definition messageOr (err : thrown) (fallback : string) : string :=
  match err with
  | Error m => m
  | NonError => fallback
  end.

(** [console.error] has no effect on the state or the store. *)
Definition console_error : M unit := ret tt.

(** ** The provider of [context/WalletContext.tsx] *)

Section WalletProvider.
Context `{Platform}.

(** [restoreSession] (lines 112-135): restore wallet session from secure
    storage. *)
Definition restoreSession : M unit :=
  try_catch
    (savedWallet <- getItemAsync "walletAddress" ;;
     savedActivity <- getItemAsync "lastActivity" ;;
     savedTransactions <- getItemAsync "transactions" ;;
     when_truthy savedWallet (fun savedWallet =>
       setWalletAddress (Some savedWallet) ;;
       pk <- lift (new_PublicKey savedWallet) ;;
       setPublicKey (Some pk) ;;
       setIsConnected true) ;;
     when_truthy savedActivity (fun savedActivity =>
       setLastActivity (Some (parseInt savedActivity))) ;;
     when_truthy savedTransactions (fun savedTransactions =>
       parsed <- lift (JSON_parse savedTransactions) ;;
       setTransactions (fun _ => parsed)))
    (fun err =>
       console_error ;;
       setError (Some "Failed to restore session")).

(** [clearSession] (lines 140-155): clear wallet session and stored
    data. *)
Definition clearSession : M unit :=
  try_catch
    (deleteItemAsync "walletAddress" ;;
     deleteItemAsync "lastActivity" ;;
     deleteItemAsync "transactions" ;;
     setWalletAddress None ;;
     setPublicKey None ;;
     setIsConnected false ;;
     setTransactions (fun _ => []) ;;
     setLastActivity None ;;
     setError None)
    (fun err => console_error).

(** [connectWallet] (lines 160-190): the connection is simulated;
    [options] is unused. *)
Definition connectWallet (options : option string) : M unit :=
  setIsLoading true ;;
  setError None ;;
  try_catch_finally
    (r <- Math_random_toString36 ;;
     let simulatedAddress := "LazorKitWallet" +:+ substr 2 9 r in
     setWalletAddress (Some simulatedAddress) ;;
     pk <- lift (new_PublicKey "11111111111111111111111111111111") ;;
     setPublicKey (Some pk) ;;
     setIsConnected true ;;
     setItemAsync "walletAddress" simulatedAddress ;;
     t1 <- Date_now ;;
     setItemAsync "lastActivity" (Z_toString t1) ;;
     t2 <- Date_now ;;
     setLastActivity (Some (num_of_Z t2)))
    (fun err =>
       let errorMsg := messageOr err "Failed to connect wallet" in
       setError (Some errorMsg) ;;
       setIsConnected false)
    (setIsLoading false).

(** [disconnectWallet] (lines 195-197): disconnect wallet and clear
    session. *)
Definition disconnectWallet : M unit :=
  clearSession.

(** [signMessage] (lines 202-227); [isConnected] is the value of the
    render the callback belongs to, read here when the operation starts. *)
Definition signMessage (message : string) (options : option string) : M string :=
  s <- getState ;;
  if negb (isConnected s) then throw (Error "Wallet not connected")
  else
    setIsLoading true ;;
    try_catch_finally
      (r <- Math_random_toString36 ;;
       let signature := "sig_" +:+ substr 2 16 r in
       t <- Date_now ;;
       setLastActivity (Some (num_of_Z t)) ;;
       ret signature)
      (fun err =>
         let errorMsg := messageOr err "Failed to sign message" in
         setError (Some errorMsg) ;;
         throw err)
      (setIsLoading false).

(** [sendTransaction] (lines 232-276); [isConnected] and [transactions]
    are the values of the render the callback belongs to, read here when
    the operation starts. *)
Definition sendTransaction (recipient : string) (amount : number)
    (token : string) (options : option string) : M string :=
  s <- getState ;;
  if negb (isConnected s) then throw (Error "Wallet not connected")
  else
    setIsLoading true ;;
    try_catch_finally
      (r <- Math_random_toString36 ;;
       let txId := "tx_" +:+ substr 2 16 r in
       t0 <- Date_now ;;
       let newTx :=
         {| id := txId;
            signature := txId;
            type := if String.eqb token "USDC" then TxSend else TxSend;
            amount := amount;
            token := token;
            recipient := Some recipient;
            timestamp := num_of_Z t0;
            status := Pending |} in
       setTransactions (fun prev => newTx :: prev) ;;
       t1 <- Date_now ;;
       setLastActivity (Some (num_of_Z t1)) ;;
       let updated := newTx :: transactions s in
       setItemAsync "transactions" (JSON_stringify updated) ;;
       t2 <- Date_now ;;
       setItemAsync "lastActivity" (Z_toString t2) ;;
       ret txId)
      (fun err =>
         let errorMsg := messageOr err "Failed to send transaction" in
         setError (Some errorMsg) ;;
         throw err)
      (setIsLoading false).

(** [sendTransaction] as a callback the caller has kept: [useCallback]
    (line 275, dependencies [isConnected] and [transactions]) makes a new
    callback at each render where one of the two changed, and a callback
    sees the [isConnected] and [transactions] of the render that made it.
    The guard (line 238) and the list that is persisted (line 261) use
    these held values; the list in memory is updated through the updater
    (line 257) and so from the live state.  [sendTransaction] above is the
    callback of the current render: see [sendTransaction_current]. *)
Definition sendTransactionHeld (heldConnected : bool)
    (heldTransactions : list Transaction) (recipient : string)
    (amount : number) (token : string) (options : option string)
    : M string :=
  if negb heldConnected then throw (Error "Wallet not connected")
  else
    setIsLoading true ;;
    try_catch_finally
      (r <- Math_random_toString36 ;;
       let txId := "tx_" +:+ substr 2 16 r in
       t0 <- Date_now ;;
       let newTx :=
         {| id := txId;
            signature := txId;
            type := if String.eqb token "USDC" then TxSend else TxSend;
            amount := amount;
            token := token;
            recipient := Some recipient;
            timestamp := num_of_Z t0;
            status := Pending |} in
       setTransactions (fun prev => newTx :: prev) ;;
       t1 <- Date_now ;;
       setLastActivity (Some (num_of_Z t1)) ;;
       let updated := newTx :: heldTransactions in
       setItemAsync "transactions" (JSON_stringify updated) ;;
       t2 <- Date_now ;;
       setItemAsync "lastActivity" (Z_toString t2) ;;
       ret txId)
      (fun err =>
         let errorMsg := messageOr err "Failed to send transaction" in
         setError (Some errorMsg) ;;
         throw err)
      (setIsLoading false).

End WalletProvider.

(** The arguments of one call of [sendTransaction]. *)
Record SendArgs : Type := mkSendArgs {
  to : string;
  sum : number;
  mint : string;
  opts : option string
}.

(** A caller sending one transfer after the other, stopping at the first
    one that throws. *)
Fixpoint sendAll `{Platform} (calls : list SendArgs) : M (list string) :=
  match calls with
  | [] => ret []
  | c :: calls' =>
      txId <- sendTransaction (to c) (sum c) (mint c) (opts c) ;;
      txIds <- sendAll calls' ;;
      ret (txId :: txIds)
  end.

(** What [restoreSession] makes of the [lastActivity] key, [previous]
    being the value in the state. *)
Definition restoredActivity `{Platform} (m : gmap string string)
    (previous : option number) : option number :=
  match m !! "lastActivity" with
  | Some savedActivity =>
      if str_truthy savedActivity then Some (parseInt savedActivity)
      else previous
  | None => previous
  end.

(** ** The SDK-backed provider

    The repository carries a second [WalletContext.tsx], the one that
    imports [useWalletStore] from [@lazorkit/wallet-mobile-adapter] and
    sends its operations through the SDK.  Its [clearSession] is the one
    above; [restoreSession], [disconnectWallet] and [sendTransaction]
    differ and are embedded here.  The effects that mirror the SDK store
    into the state, [fetchBalance] and the [balance] field, which these
    operations neither read nor write, are not. *)

Module SdkProvider.
Section Operations.
Context `{Platform}.

(** A call to the SDK: logged, then it returns or throws as [sdkFaults]
    says. *)
Definition sdkCall (call : ExternalCall) : M unit :=
  fun c =>
    let w := snd c in
    let w' :=
      {| secureStore := secureStore w; storeFaults := storeFaults w;
         sdkFaults := tl (sdkFaults w); clock := clock w;
         randoms := randoms w; externalCalls := call :: externalCalls w |} in
    match sdkFaults w with
    | Some e :: _ => (Thrown e, (fst c, w'))
    | _ => (Returned tt, (fst c, w'))
    end.

(** [restoreSession]: the saved address is validated first; an invalid one
    clears the session and ends the restoration. *)
Definition restoreSession : M unit :=
  try_catch
    (savedWallet <- getItemAsync "walletAddress" ;;
     savedActivity <- getItemAsync "lastActivity" ;;
     savedTransactions <- getItemAsync "transactions" ;;
     proceed <-
       match savedWallet with
       | Some savedWallet =>
           if str_truthy savedWallet then
             try_catch
               (pubKey <- lift (new_PublicKey savedWallet) ;;
                setWalletAddress (Some savedWallet) ;;
                setPublicKey (Some pubKey) ;;
                setIsConnected true ;;
                ret true)
               (fun keyError =>
                  console_error ;;
                  clearSession ;;
                  ret false)
           else ret true
       | None => ret true
       end ;;
     if proceed : bool then
       when_truthy savedActivity (fun savedActivity =>
         setLastActivity (Some (parseInt savedActivity))) ;;
       when_truthy savedTransactions (fun savedTransactions =>
         parsed <- lift (JSON_parse savedTransactions) ;;
         setTransactions (fun _ => parsed))
     else ret tt)
    (fun err =>
       console_error ;;
       setError (Some "Failed to restore session")).

(** [disconnectWallet]: the SDK's [disconnect], whose failure is logged
    and dropped, then [clearSession]. *)
Definition disconnectWallet : M unit :=
  try_catch (sdkCall SdkDisconnect) (fun err => console_error) ;;
  clearSession.

(** [sendTransactionHandler], exported as [sendTransaction].  Building the
    transfer instruction and [signAndExecuteTransaction] are one step, which
    returns or throws as the environment says. *)
Definition sendTransactionHandler (recipient : string) (amount : number)
    (token : string) (options : option string) : M string :=
  s <- getState ;;
  if negb (isConnected s)
     || match publicKey s with Some _ => false | None => true end
  then throw (Error "Wallet not connected")
  else
    try_catch
      (recipientPubkey <- lift (new_PublicKey recipient) ;;
       sdkCall (SdkSignAndExecute recipientPubkey amount) ;;
       t0 <- Date_now ;;
       r <- Math_random_toString36 ;;
       let tempTxId := "tx_" +:+ Z_toString t0 +:+ "_" +:+ substr 2 9 r in
       t1 <- Date_now ;;
       let newTx :=
         {| id := tempTxId;
            signature := tempTxId;
            type := TxSend;
            amount := amount;
            token := token;
            recipient := Some recipient;
            timestamp := num_of_Z t1;
            status := Confirmed |} in
       let updatedTxs := newTx :: transactions s in
       setTransactions (fun _ => updatedTxs) ;;
       t2 <- Date_now ;;
       setLastActivity (Some (num_of_Z t2)) ;;
       setItemAsync "transactions" (JSON_stringify updatedTxs) ;;
       t3 <- Date_now ;;
       setItemAsync "lastActivity" (Z_toString t3) ;;
       ret tempTxId)
      (fun err =>
         let errorMsg := messageOr err "Failed to send transaction" in
         setError (Some errorMsg) ;;
         console_error ;;
         throw err).

End Operations.
End SdkProvider.

(** ** Session keys of [utils/lazorkit.ts] *)

(** [SessionPermissions]: every field is optional; [allowedPrograms] is
    carried but never consulted. *)
Record SessionPermissions : Type := mkSessionPermissions {
  maxAmount : option number;
  allowedRecipients : option (list PublicKey);
  allowedTokens : option (list PublicKey);
  allowedPrograms : option (list PublicKey)
}.

Record SessionKey : Type := mkSessionKey {
  sk_publicKey : PublicKey;
  permissions : SessionPermissions;
  createdAt : number;
  expiresAt : number
}.

(** [arr.some(p)] *)
Definition some {A} (p : A -> bool) (arr : list A) : bool := existsb p arr.

(** [validateSessionKeyPermissions] (lines 268-301): check if the session
    key has permission for the transaction; [now] is the reading of
    [Date.now()]. *)
Definition validateSessionKeyPermissions (sessionKey : SessionKey)
    (recipient : PublicKey) (amount : number) (token : PublicKey)
    (now : Z) : bool :=
  let permissions := permissions sessionKey in
  (* Check expiration *)
  if num_lt (expiresAt sessionKey) (num_of_Z now) then false
  (* Check amount limit *)
  else if
    match maxAmount permissions with
    | Some m => num_truthy m && num_gt amount m
    | None => false
    end
  then false
  (* Check recipient whitelist *)
  else if
    match allowedRecipients permissions with
    | Some rs => negb (some (fun r => equals r recipient) rs)
    | None => false
    end
  then false
  (* Check token whitelist *)
  else if
    match allowedTokens permissions with
    | Some ts => negb (some (fun t => equals t token) ts)
    | None => false
    end
  then false
  else true.

(** ** A reference platform

    Executable stand-ins for the library functions, used to run the
    operations on concrete inputs: base-58 decoding as [bs58] does it and
    the 32-byte check of [PublicKey], [parseInt] without a radix argument,
    and a JSON reader and printer for arrays of transaction records. *)

Module Reference.

Local Open Scope N_scope.

Definition base58_alphabet : string :=
  "123456789ABCDEFGHJKLMNPQRSTUVWXYZabcdefghijkmnopqrstuvwxyz".

Fixpoint index_of (c : ascii) (s : string) (i : N) : option N :=
  match s with
  | EmptyString => None
  | String d s' => if Ascii.eqb c d then Some i else index_of c s' (N.succ i)
  end.

(** The number a base-58 string denotes; [None] on a character outside the
    alphabet. *)
Fixpoint base58_value (s : string) (acc : N) : option N :=
  match s with
  | EmptyString => Some acc
  | String c s' =>
      match index_of c base58_alphabet 0 with
      | Some d => base58_value s' (acc * 58 + d)
      | None => None
      end
  end.

(** Each leading ['1'] stands for one zero byte. *)
Fixpoint leading_ones (s : string) : N :=
  match s with
  | String "1" s' => N.succ (leading_ones s')
  | _ => 0
  end.

Definition byte_length (n : N) : N :=
  if N.eqb n 0 then 0 else N.log2 n / 8 + 1.

Definition PUBLIC_KEY_LENGTH : N := 32.

Definition PublicKey_of_string (s : string) : outcome PublicKey :=
  match base58_value s 0 with
  | None => Thrown (Error "Non-base58 character")
  | Some v =>
      if N.eqb (leading_ones s + byte_length v) PUBLIC_KEY_LENGTH
      then Returned (mkPublicKey v)
      else Thrown (Error "Invalid public key input")
  end.

(** *** [parseInt] *)

Definition is_space (c : ascii) : bool :=
  let n := N_of_ascii c in
  N.eqb n 32 || (N.leb 9 n && N.leb n 13).

Fixpoint skip_spaces (s : string) : string :=
  match s with
  | String c s' => if is_space c then skip_spaces s' else s
  | EmptyString => s
  end.

Definition digit_value (radix : N) (c : ascii) : option N :=
  let n := N_of_ascii c in
  let d :=
    if N.leb 48 n && N.leb n 57 then Some (n - 48)
    else if N.leb 97 n && N.leb n 122 then Some (n - 87)
    else if N.leb 65 n && N.leb n 90 then Some (n - 55)
    else None in
  match d with
  | Some v => if N.ltb v radix then Some v else None
  | None => None
  end.

(** The longest prefix of digits; [None] when there is none. *)
Fixpoint leading_digits (radix : N) (s : string) (acc : option N) : option N :=
  match s with
  | EmptyString => acc
  | String c s' =>
      match digit_value radix c with
      | Some d =>
          leading_digits radix s'
            (Some (match acc with Some a => a * radix + d | None => d end))
      | None => acc
      end
  end.

Definition parseInt_js (s : string) : number :=
  let s := skip_spaces s in
  let '(negative, s) :=
    match s with
    | String "-" s' => (true, s')
    | String "+" s' => (false, s')
    | _ => (false, s)
    end in
  let '(radix, s) :=
    match s with
    | String "0" (String "x" s') => (16%N, s')
    | String "0" (String "X" s') => (16%N, s')
    | _ => (10%N, s)
    end in
  match leading_digits radix s None with
  | None => NaN
  | Some n =>
      Fin (inject_Z (if negative then Z.opp (Z.of_N n) else Z.of_N n))
  end.

(** *** JSON for transaction lists

    The text [JSON.stringify] writes for a [Transaction[]] (no white space,
    keys in declaration order, an absent [recipient] left out) and a reader
    for such text.  Strings escape the double quote and the backslash only;
    a number is an optional sign, digits and an optional fraction. *)

Definition dquote : ascii := ascii_of_N 34.
Definition backslash : ascii := ascii_of_N 92.

Fixpoint escape (s : string) : string :=
  match s with
  | EmptyString => EmptyString
  | String c s' =>
      if Ascii.eqb c dquote || Ascii.eqb c backslash
      then String backslash (String c (escape s'))
      else String c (escape s')
  end.

Definition print_string (s : string) : string :=
  String dquote (escape s +:+ String dquote EmptyString).

Fixpoint decimals_needed (fuel : nat) (den : Z) (k : nat) : option nat :=
  if Z.eqb (Z.modulo (10 ^ Z.of_nat k) den) 0 then Some k
  else
    match fuel with
    | O => None
    | S fuel' => decimals_needed fuel' den (S k)
    end.

(** [s] with zeros in front, up to [width] characters. *)
Fixpoint pad_zeros (fuel width : nat) (s : string) : string :=
  match fuel with
  | O => s
  | S fuel' =>
      if Nat.ltb (String.length s) width
      then pad_zeros fuel' width (String "0" s)
      else s
  end.

Definition print_number (n : number) : string :=
  match n with
  | Fin q =>
      let q := Qred q in
      let den := Z.pos (Qden q) in
      match decimals_needed 30 den 0 with
      | Some O => Z_toString (Qnum q)
      | Some k =>
          let scale := (10 ^ Z.of_nat k)%Z in
          let scaled := Z.abs (Qnum q * scale / den) in
          (if Z.ltb (Qnum q) 0 then "-" else "") +:+
          Z_toString (scaled / scale) +:+ "." +:+
          pad_zeros k k (Z_toString (scaled mod scale))
      | None => "null"
      end
  | _ => "null"
  end.

Definition print_type (t : TxType) : string :=
  match t with
  | TxSend => "send" | TxReceive => "receive"
  | TxSwap => "swap" | TxBilling => "billing"
  end.

Definition print_status (t : TxStatus) : string :=
  match t with
  | Pending => "pending" | Confirmed => "confirmed" | Failed => "failed"
  end.

Definition print_field (key value : string) : string :=
  print_string key +:+ ":" +:+ value.

Definition print_transaction (t : Transaction) : string :=
  "{" +:+ print_field "id" (print_string (id t)) +:+
  "," +:+ print_field "signature" (print_string (signature t)) +:+
  "," +:+ print_field "type" (print_string (print_type (type t))) +:+
  "," +:+ print_field "amount" (print_number (amount t)) +:+
  "," +:+ print_field "token" (print_string (token t)) +:+
  match recipient t with
  | Some r => "," +:+ print_field "recipient" (print_string r)
  | None => ""
  end +:+
  "," +:+ print_field "timestamp" (print_number (timestamp t)) +:+
  "," +:+ print_field "status" (print_string (print_status (status t))) +:+
  "}".

Fixpoint print_elements (l : list Transaction) : string :=
  match l with
  | [] => ""
  | [t] => print_transaction t
  | t :: l' => print_transaction t +:+ "," +:+ print_elements l'
  end.

Definition stringify (l : list Transaction) : string :=
  "[" +:+ print_elements l +:+ "]".

Inductive jvalue : Type :=
| JString (s : string)
| JNumber (q : Q).

(** After the opening quote: the string's content and what follows the
    closing quote. *)
Fixpoint read_string_body (s : string) : option (string * string) :=
  match s with
  | EmptyString => None
  | String c s' =>
      if Ascii.eqb c dquote then Some (EmptyString, s')
      else if Ascii.eqb c backslash then
        match s' with
        | String d s'' =>
            if Ascii.eqb d dquote || Ascii.eqb d backslash then
              match read_string_body s'' with
              | Some (body, rest) => Some (String d body, rest)
              | None => None
              end
            else None
        | EmptyString => None
        end
      else
        match read_string_body s' with
        | Some (body, rest) => Some (String c body, rest)
        | None => None
        end
  end.

Definition read_string (s : string) : option (string * string) :=
  match s with
  | String c s' => if Ascii.eqb c dquote then read_string_body s' else None
  | EmptyString => None
  end.

(** The longest run of decimal digits: its value, its length, the rest. *)
Fixpoint read_digits (s : string) (acc : N) (count : nat) : N * nat * string :=
  match s with
  | String c s' =>
      match digit_value 10 c with
      | Some d => read_digits s' (acc * 10 + d) (S count)
      | None => (acc, count, s)
      end
  | EmptyString => (acc, count, s)
  end.

Definition read_number (s : string) : option (Q * string) :=
  let '(negative, s) :=
    match s with
    | String "-" s' => (true, s')
    | _ => (false, s)
    end in
  let '(whole, n, s) := read_digits s 0 0 in
  if Nat.eqb n 0 then None
  else
    let '(num, den, s) :=
      match s with
      | String "." s' =>
          let '(all, k, s'') := read_digits s' whole 0 in
          (all, (10 ^ N.of_nat k)%N, if Nat.eqb k 0 then s else s'')
      | _ => (whole, 1%N, s)
      end in
    let z := if negative then Z.opp (Z.of_N num) else Z.of_N num in
    Some (Qred (Qmake z (N.succ_pos (N.pred den))), s).

Definition read_value (s : string) : option (jvalue * string) :=
  match s with
  | String c _ =>
      if Ascii.eqb c dquote then
        match read_string s with
        | Some (v, rest) => Some (JString v, rest)
        | None => None
        end
      else
        match read_number s with
        | Some (q, rest) => Some (JNumber q, rest)
        | None => None
        end
  | EmptyString => None
  end.

(** After ["{"]: the members up to and including the closing brace. *)
Fixpoint read_members (fuel : nat) (s : string)
    : option (list (string * jvalue) * string) :=
  match fuel with
  | O => None
  | S fuel' =>
      match read_string s with
      | Some (key, String ":" s1) =>
          match read_value s1 with
          | Some (v, String "," s2) =>
              match read_members fuel' s2 with
              | Some (ms, rest) => Some ((key, v) :: ms, rest)
              | None => None
              end
          | Some (v, String "}" s2) => Some ([(key, v)], s2)
          | _ => None
          end
      | _ => None
      end
  end.

(** The value of the last member named [key], as [JSON.parse] keeps it. *)
Fixpoint member (key : string) (ms : list (string * jvalue)) : option jvalue :=
  match ms with
  | [] => None
  | (k, v) :: ms' =>
      match member key ms' with
      | Some v' => Some v'
      | None => if String.eqb k key then Some v else None
      end
  end.

Definition member_string (key : string) ms : option string :=
  match member key ms with Some (JString s) => Some s | _ => None end.

Definition member_number (key : string) ms : option number :=
  match member key ms with Some (JNumber q) => Some (Fin q) | _ => None end.

Definition read_type (s : string) : option TxType :=
  if String.eqb s "send" then Some TxSend
  else if String.eqb s "receive" then Some TxReceive
  else if String.eqb s "swap" then Some TxSwap
  else if String.eqb s "billing" then Some TxBilling
  else None.

Definition read_status (s : string) : option TxStatus :=
  if String.eqb s "pending" then Some Pending
  else if String.eqb s "confirmed" then Some Confirmed
  else if String.eqb s "failed" then Some Failed
  else None.

Definition transaction_of_members (ms : list (string * jvalue))
    : option Transaction :=
  match member_string "id" ms, member_string "signature" ms,
        member_string "type" ms, member_number "amount" ms,
        member_string "token" ms, member_number "timestamp" ms,
        member_string "status" ms with
  | Some i, Some sg, Some ty, Some am, Some tk, Some ts, Some st =>
      match read_type ty, read_status st with
      | Some ty', Some st' =>
          Some {| id := i; signature := sg; type := ty'; amount := am;
                  token := tk; recipient := member_string "recipient" ms;
                  timestamp := ts; status := st' |}
      | _, _ => None
      end
  | _, _, _, _, _, _, _ => None
  end.

(** After ["["] of a non-empty array: the records up to the closing
    bracket, which must end the text. *)
Fixpoint read_elements (fuel : nat) (s : string) : option (list Transaction) :=
  match fuel with
  | O => None
  | S fuel' =>
      match s with
      | String "{" s1 =>
          match read_members (String.length s1) s1 with
          | Some (ms, rest) =>
              match transaction_of_members ms, rest with
              | Some t, String "," s2 =>
                  match read_elements fuel' s2 with
                  | Some ts => Some (t :: ts)
                  | None => None
                  end
              | Some t, String "]" EmptyString => Some [t]
              | _, _ => None
              end
          | None => None
          end
      | _ => None
      end
  end.

Definition parse (s : string) : outcome (list Transaction) :=
  match s with
  | String "[" (String "]" EmptyString) => Returned []
  | String "[" s' =>
      match read_elements (String.length s') s' with
      | Some ts => Returned ts
      | None => Thrown (Error "JSON Parse error")
      end
  | _ => Thrown (Error "JSON Parse error")
  end.

#[export] Instance platform : Platform :=
  {| new_PublicKey := PublicKey_of_string;
     parseInt := parseInt_js;
     JSON_parse := parse;
     JSON_stringify := stringify;
     new_PublicKey_empty :=
       ex_intro _ (Error "Invalid public key input") eq_refl;
     JSON_parse_empty := ex_intro _ (Error "JSON Parse error") eq_refl |}.

End Reference.


(** ** The effect of the SDK-backed provider

    The body of the effect of the second [WalletContext.tsx] that mirrors
    the wallet of the SDK store (lines 784-809 of that file).  The wallet
    the SDK store holds is an argument. *)

Module SdkSession.
Section Operations.
Context `{Platform}.

(** [x || null] on a [string | undefined]. *)
Definition orNull (x : option string) : option string :=
  match x with
  | Some v => if str_truthy v then Some v else None
  | None => None
  end.

(** One run of the body of the effect; [smartWallet] is
    [walletInfo?.smartWallet].  The body is synchronous, and [walletAddress]
    is the one of the render the effect belongs to, which is the state the
    run starts from.  When React runs the effect (after which renders, and
    between which setters of an operation still in flight) is not part of
    this definition.  [balance] is not part of the state modelled here. *)
Definition syncWallet (smartWallet : option string) : M unit :=
  s <- getState ;;
  let currentAddress := orNull smartWallet in
  if decide (currentAddress = walletAddress s) then ret tt
  else
    match currentAddress with
    | Some currentAddress =>
        try_catch
          (pubKey <- lift (new_PublicKey currentAddress) ;;
           setWalletAddress (Some currentAddress) ;;
           setPublicKey (Some pubKey) ;;
           setIsConnected true)
          (fun err =>
             console_error ;;
             setWalletAddress None ;;
             setPublicKey None ;;
             setIsConnected false)
    | None =>
        setWalletAddress None ;;
        setPublicKey None ;;
        setIsConnected false
    end.

End Operations.
End SdkSession.

(** ** Helpers of [utils/helpers.ts] *)

(** A relative index of [slice]: counted from the end when negative,
    clamped to the string. *)
Definition relativeIndex (len i : Z) : Z :=
  if Z.ltb i 0 then Z.max (len + i) 0 else Z.min i len.

(** [s.slice(start, stop)], [stop] being optional. *)
Definition slice (s : string) (start : Z) (stop : option Z) : string :=
  let len := Z.of_nat (String.length s) in
  let from := relativeIndex len start in
  let to :=
    match stop with
    | Some e => relativeIndex len e
    | None => len
    end in
  String.substring (Z.to_nat from) (Z.to_nat (Z.max (to - from) 0)) s.

(** [truncateAddress] (lines 15-21): truncate a Solana address for
    display; [chars] is an integer, 4 when left out. *)
Definition truncateAddress (address : option string) (chars : option Z)
    : string :=
  let chars := match chars with Some c => c | None => 4%Z end in
  match address with
  | Some address =>
      if str_truthy address
      then slice address 0 (Some chars) +:+ "..."
           +:+ slice address (- chars) None
      else ""
  | None => ""
  end.

(** [isValidSolanaAddress] (lines 57-64): validate Solana address
    format. *)
Definition isValidSolanaAddress `{Platform} (address : string) : bool :=
  match new_PublicKey address with
  | Returned _ => true
  | Thrown _ => false
  end.

(** [retry] (lines 158-177): retry a function with exponential backoff.
    The function and [sleep] act on an environment of any type;
    [maxAttempts] and [delayMs] are integers. *)
Section Retry.
Context {Env T : Type}.
Variable sleep : Z -> Env -> Env.
Variable fn : Env -> outcome T * Env.

(** The loop from [attempt] on, [fuel] bounding the iterations left;
    [lastError] is unset until an attempt has failed, and an unset
    [lastError] is thrown as [undefined]. *)
Fixpoint retryFrom (fuel : nat) (attempt maxAttempts delayMs : Z)
    (lastError : option thrown) (c : Env) : outcome T * Env :=
  let throwLast :=
    (Thrown (match lastError with Some e => e | None => NonError end), c) in
  match fuel with
  | O => throwLast
  | S fuel' =>
      if Z.leb attempt maxAttempts then
        match fn c with
        | (Returned v, c') => (Returned v, c')
        | (Thrown e, c') =>
            let c'' :=
              if Z.ltb attempt maxAttempts
              then sleep (delayMs * 2 ^ (attempt - 1)) c'
              else c' in
            retryFrom fuel' (attempt + 1) maxAttempts delayMs (Some e) c''
        end
      else throwLast
  end.

Definition retry (maxAttempts delayMs : Z) (c : Env) : outcome T * Env :=
  retryFrom (Z.to_nat maxAttempts) 1 maxAttempts delayMs None c.

End Retry.

(** An environment for [retry] in which the function's effect is its
    result alone: the results of its coming calls ([undefined] thrown past
    the end), the number of calls made, the sleeps made, first to last. *)
Record Trial (T : Type) : Type := mkTrial {
  coming : list (outcome T);
  attempts : nat;
  naps : list Z
}.
Arguments mkTrial {T} _ _ _.
Arguments coming {T} _.
Arguments attempts {T} _.
Arguments naps {T} _.

Definition attempt {T} (c : Trial T) : outcome T * Trial T :=
  match coming c with
  | [] => (Thrown NonError, mkTrial [] (S (attempts c)) (naps c))
  | o :: os => (o, mkTrial os (S (attempts c)) (naps c))
  end.

Definition nap {T} (ms : Z) (c : Trial T) : Trial T :=
  mkTrial (coming c) (attempts c) (naps c ++ [ms]).

(** The first [k] delays of the backoff: [delayMs], [2 delayMs], ... *)
Definition backoff (delayMs : Z) (k : nat) : list Z :=
  map (fun i => (delayMs * 2 ^ Z.of_nat i)%Z) (seq 0 k).

(** ** Configuration ([utils/config.ts]) and the provider's endpoints *)

Inductive Network : Type := devnet | mainnet.

Record NetworkConfig : Type := mkNetworkConfig {
  name : string;
  rpcUrl : string;
  explorerUrl : string
}.

(** [getNetworkConfig]: the entry of [NETWORKS]. *)
Definition getNetworkConfig (network : Network) : NetworkConfig :=
  match network with
  | devnet =>
      {| name := "Devnet"; rpcUrl := "https://api.devnet.solana.com";
         explorerUrl := "https://explorer.solana.com" |}
  | mainnet =>
      {| name := "Mainnet Beta";
         rpcUrl := "https://api.mainnet-beta.solana.com";
         explorerUrl := "https://explorer.solana.com" |}
  end.

(** [getPaymasterUrl]: the entry of [LAZORKIT_CONFIG.paymaster]. *)
Definition getPaymasterUrl (network : Network) : string :=
  match network with
  | devnet => "https://lazorkit-paymaster.onrender.com"
  | mainnet => "https://lazorkit-paymaster-mainnet.onrender.com"
  end.

(** The endpoints [WalletProvider] puts in the context (lines 101-107 of
    [context/WalletContext.tsx]). *)
Definition provider_rpcUrl (network : Network) : string :=
  match network with
  | devnet => "https://api.devnet.solana.com"
  | mainnet => "https://api.mainnet-beta.solana.com"
  end.

Definition provider_paymasterUrl (network : Network) : string :=
  "https://lazorkit-paymaster.onrender.com".

(** ** More of [utils/lazorkit.ts] *)

Definition SOL_MINT : string := "So11111111111111111111111111111111111111112".

(** [createSessionKey] (lines 250-263): the key expires [expirationSeconds]
    after the second reading of the clock.  [expirationSeconds] is an
    integer, 3600 when left out; on integers the arithmetic of doubles is
    exact up to [2^53]. *)
Definition createSessionKey `{Platform} (permissions : SessionPermissions)
    (expirationSeconds : option Z) : M SessionKey :=
  let expirationSeconds :=
    match expirationSeconds with Some n => n | None => 3600%Z end in
  pk <- lift (new_PublicKey SOL_MINT) ;;
  t1 <- Date_now ;;
  t2 <- Date_now ;;
  ret {| sk_publicKey := pk;
         permissions := permissions;
         createdAt := num_of_Z t1;
         expiresAt := num_of_Z (t2 + expirationSeconds * 1000) |}.

(** The body of a paymaster reply as [response.json()] gives it; a field
    that is absent or [null] is [None]. *)
Record PaymasterReply : Type := mkPaymasterReply {
  reply_valid : option bool;
  reply_sponsorshipAvailable : option bool;
  reply_fee : option number;
  reply_feeToken : option string;
  reply_error : option string;
  reply_signature : option string
}.

Record PaymasterValidation : Type := mkPaymasterValidation {
  valid : bool;
  sponsorshipAvailable : bool;
  fee : number;
  feeToken : PublicKey;
  validation_error : option string
}.

(** A request sent with [fetch]. *)
Record Request : Type := mkRequest {
  url : string;
  transaction : string;
  userAddress : option string
}.

(** [x ?? d] *)
Definition orElse {A} (x : option A) (d : A) : A :=
  match x with Some v => v | None => d end.

(** [x || d] on strings *)
Definition orString (x : option string) (d : string) : string :=
  match x with
  | Some v => if str_truthy v then v else d
  | None => d
  end.

(** The paymaster calls.  The network is a function from the request to
    the HTTP status ([response.ok]) and the parsed body, or to what
    [fetch] or [response.json()] throws; a transaction is given by what
    [serialize().toString("base64")] yields. *)
Section Paymaster.
Context `{Platform}.
Variable toBase58 : PublicKey -> string.
Variable fetch : Request -> outcome (bool * PaymasterReply).
(** The text a template literal makes of a caught value. *)
Variable describe : thrown -> string.

(** [validateWithPaymaster] (lines 124-165). *)
Definition validateWithPaymaster (serialized : outcome string)
    (walletAddress : PublicKey) (network : Network)
    : outcome PaymasterValidation :=
  let attempt :=
    match serialized with
    | Thrown e => Thrown e
    | Returned txBase64 =>
        let paymasterUrl := getPaymasterUrl network in
        match fetch {| url := paymasterUrl +:+ "/validate";
                       transaction := txBase64;
                       userAddress := Some (toBase58 walletAddress) |} with
        | Thrown e => Thrown e
        | Returned (_, data) =>
            match new_PublicKey (orString (reply_feeToken data) SOL_MINT) with
            | Thrown e => Thrown e
            | Returned token =>
                Returned
                  {| valid := orElse (reply_valid data) false;
                     sponsorshipAvailable :=
                       orElse (reply_sponsorshipAvailable data) false;
                     fee := orElse (reply_fee data) (Fin 0);
                     feeToken := token;
                     validation_error := reply_error data |}
            end
        end
    end in
  match attempt with
  | Returned v => Returned v
  | Thrown _ =>
      match new_PublicKey SOL_MINT with
      | Thrown e => Thrown e
      | Returned token =>
          Returned
            {| valid := false;
               sponsorshipAvailable := false;
               fee := Fin 0;
               feeToken := token;
               validation_error := Some "Validation failed" |}
      end
  end.

(** [submitToPaymaster] (lines 178-205). *)
Definition submitToPaymaster (serialized : outcome string)
    (network : Network) : outcome string :=
  let attempt :=
    match serialized with
    | Thrown e => Thrown e
    | Returned txBase64 =>
        let paymasterUrl := getPaymasterUrl network in
        match fetch {| url := paymasterUrl +:+ "/submit";
                       transaction := txBase64;
                       userAddress := None |} with
        | Thrown e => Thrown e
        | Returned (ok, data) =>
            if negb ok
            then Thrown (Error (orString (reply_error data)
                                  "Failed to submit transaction"))
            else Returned (orString (reply_signature data) "")
        end
    end in
  match attempt with
  | Returned v => Returned v
  | Thrown error =>
      Thrown (Error ("Paymaster submission failed: " +:+ describe error))
  end.

End Paymaster.

(** [getWalletTransactionHistory] (lines 335-356).  The RPC connection is
    two functions; a parsed transaction is of any type [Parsed], [null]
    being [None]. *)
Section History.
Context {Parsed : Type}.
Variable getSignaturesForAddress :
  PublicKey -> number -> option string -> outcome (list string).
Variable getParsedTransaction : string -> outcome (option Parsed).

(** [Promise.all]: the results in order, or what the first failing one
    throws. *)
Fixpoint Promise_all {A} (results : list (outcome A)) : outcome (list A) :=
  match results with
  | [] => Returned []
  | Thrown e :: _ => Thrown e
  | Returned a :: rest =>
      match Promise_all rest with
      | Returned l => Returned (a :: l)
      | Thrown e => Thrown e
      end
  end.

(** [arr.filter(Boolean)] *)
Definition filterBoolean {A} (arr : list (option A)) : list A :=
  omap (fun x => x) arr.

Definition getWalletTransactionHistory (walletAddress : PublicKey)
    (limit : option number) (before : option string) : list Parsed :=
  let limit :=
    match limit with
    | Some l => if num_truthy l then l else Fin 10
    | None => Fin 10
    end in
  match getSignaturesForAddress walletAddress limit before with
  | Thrown _ => []
  | Returned signatures =>
      match Promise_all (map getParsedTransaction signatures) with
      | Thrown _ => []
      | Returned transactions => filterBoolean transactions
      end
  end.

End History.

(** ** Vocabulary of the properties *)

(** The world after the three reads of [restoreSession]. *)
Definition afterReads (w : World) : World :=
  logged (GetItem "transactions") (secureStore w)
    (logged (GetItem "lastActivity") (secureStore w)
       (logged (GetItem "walletAddress") (secureStore w) w)).

(** The three persisted keys are absent. *)
Definition keysAbsent (m : gmap string string) : Prop :=
  m !! "walletAddress" = None
  /\ m !! "lastActivity" = None
  /\ m !! "transactions" = None.

(** A connected session: flag, address and key agree. *)
Definition fullyConnected (a : string) (pk : PublicKey) (s : State) : Prop :=
  isConnected s = true
  /\ walletAddress s = Some a
  /\ publicKey s = Some pk.

(** A disconnected session: nothing of a session is in memory. *)
Definition fullyDisconnected (s : State) : Prop :=
  isConnected s = false
  /\ walletAddress s = None
  /\ publicKey s = None
  /\ transactions s = []
  /\ lastActivity s = None.

(** The state [clearSession] leaves: every field but [isLoading] reset. *)
Definition cleared (s : State) : State :=
  {| walletAddress := None; publicKey := None; isConnected := false;
     isLoading := isLoading s; error := None; transactions := [];
     lastActivity := None |}.

(** The world after the three deletions of [clearSession]. *)
Definition afterDeletes (w : World) : World :=
  logged (DeleteItem "transactions")
    (delete "transactions"
       (delete "lastActivity" (delete "walletAddress" (secureStore w))))
    (logged (DeleteItem "lastActivity")
       (delete "lastActivity" (delete "walletAddress" (secureStore w)))
       (logged (DeleteItem "walletAddress")
          (delete "walletAddress" (secureStore w)) w)).

(** What a transaction record keeps of the call that made it. *)
Definition argsOf (t : Transaction) : option string * number * string :=
  (recipient t, amount t, token t).

(** The same of the arguments of a call. *)
Definition argsSent (c : SendArgs) : option string * number * string :=
  (Some (to c), sum c, mint c).

(** The record [sendTransaction] builds in world [w]. *)
Definition newTransaction (r : string) (a : number) (tk : string) (w : World)
    : Transaction :=
  let txId := "tx_" +:+ substr 2 16 (hd "0" (randoms w)) in
  {| id := txId;
     signature := txId;
     type := if String.eqb tk "USDC" then TxSend else TxSend;
     amount := a;
     token := tk;
     recipient := Some r;
     timestamp := num_of_Z (hd 0%Z (clock w));
     status := Pending |}.

(** The conditions under which a session key permits a transfer. *)
Definition unexpired (sk : SessionKey) (now : Z) : Prop :=
  num_ge (expiresAt sk) (num_of_Z now) = true.

Definition withinLimit (sk : SessionKey) (a : number) : Prop :=
  match maxAmount (permissions sk) with
  | None => True
  | Some m => is_zero m = true \/ num_le a m = true
  end.

Definition recipientAllowed (sk : SessionKey) (r : PublicKey) : Prop :=
  match allowedRecipients (permissions sk) with
  | None => True
  | Some rs => In r rs
  end.

Definition tokenAllowed (sk : SessionKey) (t : PublicKey) : Prop :=
  match allowedTokens (permissions sk) with
  | None => True
  | Some ts => In t ts
  end.

Definition permitted (sk : SessionKey) (r : PublicKey) (a : number)
    (t : PublicKey) (now : Z) : Prop :=
  unexpired sk now /\ withinLimit sk a /\ recipientAllowed sk r
  /\ tokenAllowed sk t.

(** Neither the expiry, nor the amount, nor a set limit is [NaN]. *)
Definition noNaN (sk : SessionKey) (a : number) : Prop :=
  is_NaN (expiresAt sk) = false
  /\ is_NaN a = false
  /\ match maxAmount (permissions sk) with
     | Some m => is_NaN m = false
     | None => True
     end.

(** ** Concrete inputs *)

(** A connected provider. *)
Definition connectedState : State :=
  {| walletAddress := Some "11111111111111111111111111111111";
     publicKey := Some (mkPublicKey 0); isConnected := true;
     isLoading := false; error := None; transactions := [];
     lastActivity := None |}.

(** An empty store that accepts every call. *)
Definition quietWorld : World :=
  {| secureStore := ∅; storeFaults := []; sdkFaults := [];
     clock := [1700000000000%Z]; randoms := ["0.k3x9q2m7p4tz"];
     externalCalls := [] |}.

(** An environment with two draws and a running clock. *)
Definition busyWorld : World :=
  {| secureStore := ∅; storeFaults := []; sdkFaults := [];
     clock := [1700000000000; 1700000000001; 1700000000002;
               1700000000100; 1700000000101; 1700000000102]%Z;
     randoms := ["0.k3x9q2m7p4tz"; "0.8fj2n5v1c0aa"]; externalCalls := [] |}.

(** An environment whose first [SecureStore] call is rejected. *)
Definition faultyWorld : World :=
  {| secureStore := ∅; storeFaults := [Some (Error "Keychain is locked")];
     sdkFaults := []; clock := [1700000000000%Z]; randoms := ["0.k3x9q2m7p4tz"];
     externalCalls := [] |}.

(** A transaction record. *)
Definition demoTx : Transaction :=
  {| id := "tx_a1b2c3"; signature := "tx_a1b2c3"; type := TxSend;
     amount := Fin (25 # 2); token := "USDC";
     recipient := Some "So11111111111111111111111111111111111111112";
     timestamp := num_of_Z 1700000000000; status := Pending |}.

(** An older one. *)
Definition olderTx : Transaction :=
  {| id := "tx_z9y8x7"; signature := "tx_z9y8x7"; type := TxSend;
     amount := Fin 3; token := "SOL";
     recipient := Some "11111111111111111111111111111111";
     timestamp := num_of_Z 1690000000000; status := Pending |}.

(** Two transfers. *)
Definition twoSends : list SendArgs :=
  [ {| to := "So11111111111111111111111111111111111111112";
       sum := Fin 10; mint := "USDC"; opts := None |};
    {| to := "11111111111111111111111111111111";
       sum := Fin (1 # 2); mint := "SOL"; opts := None |} ].

(** A store holding a well-formed session. *)
Definition goodWorld : World :=
  {| secureStore :=
       <["walletAddress" := "11111111111111111111111111111111"]>
         (<["lastActivity" := "1700000000000"]>
            (<["transactions" := Reference.stringify [demoTx; olderTx]]> ∅));
     storeFaults := []; sdkFaults := []; clock := []; randoms := [];
     externalCalls := [] |}.

(** A store whose transaction list is cut short. *)
Definition brokenWorld : World :=
  {| secureStore :=
       <["walletAddress" := "11111111111111111111111111111111"]>
         (<["lastActivity" := "1700000000000"]>
            (<["transactions" := "[{"]> ∅));
     storeFaults := []; sdkFaults := []; clock := []; randoms := [];
     externalCalls := [] |}.

(** A store holding an address that is not a public key. *)
Definition corruptStore : gmap string string :=
  <["walletAddress" := "not-a-public-key"]>
    (<["lastActivity" := "1700000000000"]>
       (<["transactions" := "[]"]> ∅)).

Definition corruptWorld : World :=
  {| secureStore := corruptStore; storeFaults := []; sdkFaults := [];
     clock := []; randoms := []; externalCalls := [] |}.

(** The state [restoreSession] leaves from the fresh provider on
    [corruptWorld]. *)
Definition staleState : State :=
  {| walletAddress := Some "not-a-public-key"; publicKey := None;
     isConnected := false; isLoading := false;
     error := Some "Failed to restore session"; transactions := [];
     lastActivity := None |}.

(** A key limited to 100 units that expires at time 2000. *)
Definition cappedKey : SessionKey :=
  {| sk_publicKey := mkPublicKey 1;
     permissions :=
       {| maxAmount := Some (Fin 100); allowedRecipients := None;
          allowedTokens := None; allowedPrograms := None |};
     createdAt := num_of_Z 0;
     expiresAt := num_of_Z 2000 |}.

(** The provider after a successful [connectWallet]. *)
Definition afterConnect : State * World :=
  snd (connectWallet (H := Reference.platform) None (initialState, busyWorld)).

(** An environment that accepts two writes and then rejects a call: the
    keychain locks once the wallet is connected. *)
Definition lockingWorld : World :=
  {| secureStore := ∅;
     storeFaults := [None; None; Some (Error "Keychain is locked")];
     sdkFaults := []; clock := [1700000000000; 1700000000001]%Z;
     randoms := ["0.k3x9q2m7p4tz"]; externalCalls := [] |}.

(** The provider after [connectWallet] there, and after the
    [disconnectWallet] that follows. *)
Definition afterLockedConnect : State * World :=
  snd (connectWallet (H := Reference.platform) None
         (initialState, lockingWorld)).

Definition afterLockedDisconnect : State * World :=
  snd (disconnectWallet afterLockedConnect).

(** ** Vocabulary of the further properties *)

(** A connected state holds an address and a key. *)
Definition connectedHasAddress (s : State) : Prop :=
  isConnected s = true -> is_Some (walletAddress s) /\ is_Some (publicKey s).

(** The session invariant of the SDK-backed provider: the state is
    connected exactly when it holds an address, and then the address is a
    valid one and [publicKey] is the key it denotes. *)
Definition sessionInvariant `{Platform} (s : State) : Prop :=
  match walletAddress s with
  | Some a =>
      isConnected s = true
      /\ exists pk, new_PublicKey a = Returned pk /\ publicKey s = Some pk
  | None => isConnected s = false /\ publicKey s = None
  end.

(** A session key without restrictions. *)
Definition unrestricted : SessionPermissions :=
  {| maxAmount := None; allowedRecipients := None; allowedTokens := None;
     allowedPrograms := None |}.

(** Integers on which the arithmetic of doubles is exact. *)
Definition safeInteger (z : Z) : Prop := (Z.abs z <= 2 ^ 53)%Z.

(** What [validateWithPaymaster] returns when the validation failed. *)
Definition validationFailed (token : PublicKey) : PaymasterValidation :=
  {| valid := false; sponsorshipAvailable := false; fee := Fin 0;
     feeToken := token; validation_error := Some "Validation failed" |}.

(** The request [validateWithPaymaster] sends. *)
Definition validateRequest (toBase58 : PublicKey -> string) (txBase64 : string)
    (walletAddress : PublicKey) (network : Network) : Request :=
  {| url := getPaymasterUrl network +:+ "/validate";
     transaction := txBase64;
     userAddress := Some (toBase58 walletAddress) |}.

(** The request [submitToPaymaster] sends. *)
Definition submitRequest (txBase64 : string) (network : Network) : Request :=
  {| url := getPaymasterUrl network +:+ "/submit";
     transaction := txBase64;
     userAddress := None |}.

(** The limit [getWalletTransactionHistory] sends: [options.limit || 10]. *)
Definition limitSent (limit : option number) : number :=
  match limit with
  | Some l => if num_truthy l then l else Fin 10
  | None => Fin 10
  end.

(** What a lookup found, [None] for [null] and for a failed lookup. *)
Definition found {Parsed} (o : outcome (option Parsed)) : option Parsed :=
  match o with
  | Returned x => x
  | Thrown _ => None
  end.

(** ** Concrete inputs of the further properties *)

(** A connected provider that holds two transactions. *)
Definition liveState : State :=
  {| walletAddress := Some "11111111111111111111111111111111";
     publicKey := Some (mkPublicKey 0); isConnected := true;
     isLoading := false; error := None; transactions := [demoTx; olderTx];
     lastActivity := Some (num_of_Z 1700000000000) |}.

(** Its store, which another part of the application shares, with a
    running clock. *)
Definition liveWorld : World :=
  {| secureStore := <["theme" := "dark"]> (secureStore goodWorld);
     storeFaults := []; sdkFaults := [];
     clock := [1700000000500; 1700000000501; 1700000000502]%Z;
     randoms := ["0.k3x9q2m7p4tz"]; externalCalls := [] |}.

(** The provider after one transfer. *)
Definition afterSend : State * World :=
  snd (sendTransaction (H := Reference.platform) SOL_MINT (Fin 10) "USDC" None
         (liveState, liveWorld)).

(** The environment some time later. *)
Definition laterWorld : World :=
  {| secureStore := secureStore (snd afterSend); storeFaults := [];
     sdkFaults := [];
     clock := [1700000000900; 1700000000901; 1700000000902]%Z;
     randoms := ["0.8fj2n5v1c0aa"];
     externalCalls := externalCalls (snd afterSend) |}.

(** The provider after a second transfer, sent through the callback that
    made the first one: it still holds the list of [liveState]. *)
Definition afterKeptSend : State * World :=
  snd (sendTransactionHeld (H := Reference.platform) true
         (transactions liveState)
         "11111111111111111111111111111111" (Fin 3) "SOL" None
         (fst afterSend, laterWorld)).

(** The SDK-backed provider after the same transfer. *)
Definition afterSdkSend : State * World :=
  snd (SdkProvider.sendTransactionHandler (H := Reference.platform)
         SOL_MINT (Fin 10) "USDC" None (liveState, liveWorld)).

(** An environment in which the user declines to sign. *)
Definition rejectingWorld : World :=
  {| secureStore := secureStore goodWorld; storeFaults := [];
     sdkFaults := [Some (Error "User rejected the request")];
     clock := [1700000000500; 1700000000501]%Z;
     randoms := ["0.k3x9q2m7p4tz"]; externalCalls := [] |}.

(** The key of the SOL mint. *)
Definition solKey : PublicKey :=
  mkPublicKey
    2988679396378646993494765771507681406623014513651778753134412041978399162369.

(** The unrestricted key made at [busyWorld] for one hour. *)
Definition hourKey : SessionKey :=
  {| sk_publicKey := solKey; permissions := unrestricted;
     createdAt := num_of_Z 1700000000000;
     expiresAt := num_of_Z 1700003600001 |}.

(** A key whose whitelist of recipients is empty. *)
Definition lockedKey : SessionKey :=
  {| sk_publicKey := mkPublicKey 1;
     permissions :=
       {| maxAmount := None; allowedRecipients := Some [];
          allowedTokens := None; allowedPrograms := None |};
     createdAt := num_of_Z 0;
     expiresAt := num_of_Z 2000 |}.

(** The base58 form of the one wallet key the examples use. *)
Definition walletBase58 (key : PublicKey) : string :=
  "11111111111111111111111111111111".

(** A paymaster that sponsors every transaction. *)
Definition sponsoringFetch (request : Request) : outcome (bool * PaymasterReply) :=
  Returned (true,
            {| reply_valid := Some true; reply_sponsorshipAvailable := Some true;
               reply_fee := Some (Fin 0); reply_feeToken := None;
               reply_error := None; reply_signature := None |}).

(** A network that is down. *)
Definition offlineFetch (request : Request) : outcome (bool * PaymasterReply) :=
  Thrown (Error "Network request failed").

(** An RPC node that knows three signatures. *)
Definition rpcSignatures (address : PublicKey) (limit : number)
    (before : option string) : outcome (list string) :=
  Returned ["sigA"; "sigB"; "sigC"].

(** Its lookup, which has lost the second transaction. *)
Definition rpcLookup (sig : string) : outcome (option string) :=
  if String.eqb sig "sigB" then Returned None
  else Returned (Some ("parsed " +:+ sig)).

(** A lookup that is rate-limited on the second transaction. *)
Definition rpcLookupLimited (sig : string) : outcome (option string) :=
  if String.eqb sig "sigB" then Thrown (Error "429 Too Many Requests")
  else Returned (Some ("parsed " +:+ sig)).

(** * Properties *)

(** ** Running the primitives *)

Lemma reliable_nextFault (w : World) : reliable w -> nextFault w = None.
Proof.
  unfold reliable, nextFault. destruct (storeFaults w) as [|f fs]; [easy|].
  intros Hall. now inversion Hall.
Qed.

Lemma reliable_logged call m (w : World) : reliable w -> reliable (logged call m w).
Proof.
  unfold reliable, logged. simpl. destruct (storeFaults w) as [|f fs]; [easy|].
  intros Hall. now inversion Hall.
Qed.

Lemma reliable_tick (w : World) : reliable w -> reliable (tick w).
Proof. easy. Qed.

Lemma reliable_drawn (w : World) : reliable w -> reliable (drawn w).
Proof. easy. Qed.

Create HintDb reliable.
#[export] Hint Resolve reliable_logged reliable_tick reliable_drawn : reliable.

Lemma getItemAsync_ok key (s : State) (w : World) :
  reliable w ->
  getItemAsync key (s, w)
  = (Returned (secureStore w !! key), (s, logged (GetItem key) (secureStore w) w)).
Proof.
  intros Hw. unfold getItemAsync, storeCall. simpl.
  now rewrite (reliable_nextFault w Hw).
Qed.

Lemma setItemAsync_ok key value (s : State) (w : World) :
  reliable w ->
  setItemAsync key value (s, w)
  = (Returned tt, (s, logged (SetItem key value) (<[key := value]> (secureStore w)) w)).
Proof.
  intros Hw. unfold setItemAsync, storeCall. simpl.
  now rewrite (reliable_nextFault w Hw).
Qed.

Lemma deleteItemAsync_ok key (s : State) (w : World) :
  reliable w ->
  deleteItemAsync key (s, w)
  = (Returned tt, (s, logged (DeleteItem key) (delete key (secureStore w)) w)).
Proof.
  intros Hw. unfold deleteItemAsync, storeCall. simpl.
  now rewrite (reliable_nextFault w Hw).
Qed.

Section ProviderFacts.
Context `{Platform}.

(** *** [signMessage] while disconnected *)


Lemma getItemAsync_cases key (s : State) (w : World) :
  getItemAsync key (s, w)
  = (Returned (secureStore w !! key), (s, logged (GetItem key) (secureStore w) w))
  \/ exists e,
      getItemAsync key (s, w)
      = (Thrown e, (s, logged (GetItem key) (secureStore w) w)).
Proof.
  unfold getItemAsync, storeCall. simpl.
  destruct (nextFault w) as [e|]; [right; now exists e | now left].
Qed.

Lemma setItemAsync_cases key value (s : State) (w : World) :
  setItemAsync key value (s, w)
  = (Returned tt,
     (s, logged (SetItem key value) (<[key := value]> (secureStore w)) w))
  \/ exists e,
      setItemAsync key value (s, w)
      = (Thrown e, (s, logged (SetItem key value) (secureStore w) w)).
Proof.
  unfold setItemAsync, storeCall. simpl.
  destruct (nextFault w) as [e|]; [right; now exists e | now left].
Qed.

Lemma deleteItemAsync_cases key (s : State) (w : World) :
  deleteItemAsync key (s, w)
  = (Returned tt,
     (s, logged (DeleteItem key) (delete key (secureStore w)) w))
  \/ exists e,
      deleteItemAsync key (s, w)
      = (Thrown e, (s, logged (DeleteItem key) (secureStore w) w)).
Proof.
  unfold deleteItemAsync, storeCall. simpl.
  destruct (nextFault w) as [e|]; [right; now exists e | now left].
Qed.

(** Case analysis on the next [getItemAsync] of the goal. *)
Ltac read_item :=
  match goal with
  | |- context [getItemAsync ?k (?s, ?w)] =>
      let E := fresh "E" in
      let e := fresh "e" in
      destruct (getItemAsync_cases k s w) as [E|[e E]]; rewrite E; clear E
  end.

Lemma valid_not_empty a pk : new_PublicKey a = Returned pk -> str_truthy a = true.
Proof.
  destruct a; [|reflexivity].
  destruct new_PublicKey_empty as [e He]. congruence.
Qed.

Lemma parsed_not_empty str txs : JSON_parse str = Returned txs -> str_truthy str = true.
Proof.
  destruct str; [|reflexivity].
  destruct JSON_parse_empty as [e He]. congruence.
Qed.

(** *** [restoreSession] on a well-formed session *)

(** C2.  For every persisted state whose [walletAddress] key holds a valid
    address and whose [transactions] key holds a well-formed serialized
    list (whatever the [lastActivity] key holds), and when the three reads
    are not rejected, [restoreSession] returns with [isConnected] true, the
    address and its key in the state, and [transactions] equal to the
    persisted list, in the same order; [lastActivity] is the persisted
    timestamp as [parseInt] reads it; the store is left as it was. *)
Theorem restoreSession_valid :
  forall (s : State) (w : World) (a str : string) (pk : PublicKey)
         (txs : list Transaction),
    reliable w ->
    secureStore w !! "walletAddress" = Some a ->
    new_PublicKey a = Returned pk ->
    secureStore w !! "transactions" = Some str ->
    JSON_parse str = Returned txs ->
    exists s',
      restoreSession (s, w) = (Returned tt, (s', afterReads w))
      /\ isConnected s' = true
      /\ walletAddress s' = Some a
      /\ publicKey s' = Some pk
      /\ transactions s' = txs
      /\ lastActivity s' = restoredActivity (secureStore w) (lastActivity s)
      /\ secureStore (afterReads w) = secureStore w.
Proof.
  intros s w a str pk txs Hw Ha Hpk Hstr Htxs.
  pose proof (valid_not_empty _ _ Hpk) as Hta.
  pose proof (parsed_not_empty _ _ Htxs) as Hts.
  unfold restoreSession, try_catch, bind.
  rewrite getItemAsync_ok by assumption.
  rewrite getItemAsync_ok by auto with reliable.
  rewrite getItemAsync_ok by auto with reliable.
  simpl. rewrite Ha, Hstr. unfold when_truthy. rewrite Hta, Hts.
  unfold lift. rewrite Hpk, Htxs. simpl.
  unfold restoredActivity.
  destruct (secureStore w !! "lastActivity") as [ts|];
    [destruct (str_truthy ts)|];
    simpl; eexists; repeat split.
Qed.

(** *** [restoreSession] on a corrupted transaction list *)

(** C9.  For every persisted state with a valid address under
    [walletAddress] and, under [transactions], a string that is not valid
    JSON, [restoreSession] run by the freshly mounted provider returns
    without throwing, and the state it leaves is either connected (flag,
    address and key set together) with [transactions] the empty list, or
    disconnected with nothing of the session in memory (when a read of the
    store is rejected).  The store is left as it was. *)
Theorem restoreSession_corrupted_transactions :
  forall (w : World) (a str : string) (pk : PublicKey) (e : thrown),
    secureStore w !! "walletAddress" = Some a ->
    new_PublicKey a = Returned pk ->
    secureStore w !! "transactions" = Some str ->
    JSON_parse str = Thrown e ->
    exists s' w',
      restoreSession (initialState, w) = (Returned tt, (s', w'))
      /\ (fullyConnected a pk s' /\ transactions s' = []
          \/ fullyDisconnected s')
      /\ secureStore w' = secureStore w.
Proof.
  intros w a str pk e Ha Hpk Hstr Hparse.
  pose proof (valid_not_empty _ _ Hpk) as Hta.
  unfold restoreSession, try_catch, bind.
  do 3 (read_item;
        [|do 2 eexists; split; [reflexivity|];
          split; [right; now repeat split|reflexivity]]).
  simpl. rewrite Ha, Hstr. unfold when_truthy. rewrite Hta.
  unfold lift. rewrite Hpk, Hparse. simpl.
  destruct (secureStore w !! "lastActivity") as [ts|];
    [destruct (str_truthy ts)|]; destruct (str_truthy str); simpl;
    do 2 eexists; (split; [reflexivity|]);
    (split; [left; now repeat split|reflexivity]).
Qed.

(** *** [restoreSession] on an invalid address *)

(** The constructor of [PublicKey] throws after the address has been put
    in the state; the handler records the error and nothing is deleted. *)
Lemma restoreSession_invalid (s : State) (w : World) (a : string) (e : thrown) :
  reliable w ->
  secureStore w !! "walletAddress" = Some a ->
  str_truthy a = true ->
  new_PublicKey a = Thrown e ->
  exists s',
    restoreSession (s, w) = (Returned tt, (s', afterReads w))
    /\ walletAddress s' = Some a
    /\ publicKey s' = publicKey s
    /\ isConnected s' = isConnected s
    /\ transactions s' = transactions s
    /\ lastActivity s' = lastActivity s
    /\ error s' = Some "Failed to restore session"
    /\ secureStore (afterReads w) = secureStore w.
Proof.
  intros Hw Ha Hta Hbad.
  unfold restoreSession, try_catch, bind.
  rewrite getItemAsync_ok by assumption.
  rewrite getItemAsync_ok by auto with reliable.
  rewrite getItemAsync_ok by auto with reliable.
  simpl. rewrite Ha. unfold when_truthy. rewrite Hta.
  unfold lift. rewrite Hbad. simpl.
  eexists. repeat split.
Qed.

(** *** [connectWallet] then [disconnectWallet] *)

Lemma clearSession_ok (s : State) (w : World) :
  reliable w ->
  clearSession (s, w) = (Returned tt, (cleared s, afterDeletes w)).
Proof.
  intros Hw. unfold clearSession, try_catch, bind.
  rewrite deleteItemAsync_ok by assumption.
  rewrite deleteItemAsync_ok by auto with reliable.
  rewrite deleteItemAsync_ok by auto with reliable.
  reflexivity.
Qed.

Lemma keysAbsent_afterDeletes (w : World) :
  keysAbsent (secureStore (afterDeletes w)).
Proof.
  unfold keysAbsent, afterDeletes. simpl.
  repeat split.
  - rewrite lookup_delete_ne by discriminate.
    rewrite lookup_delete_ne by discriminate.
    apply lookup_delete_eq.
  - rewrite lookup_delete_ne by discriminate.
    apply lookup_delete_eq.
  - apply lookup_delete_eq.
Qed.

(** Case analysis on the next [setItemAsync] of the goal. *)
Ltac write_item :=
  match goal with
  | |- context [setItemAsync ?k ?v (?s, ?w)] =>
      let E := fresh "E" in
      let e := fresh "e" in
      destruct (setItemAsync_cases k v s w) as [E|[e E]]; rewrite E; clear E
  end.

(** [connectWallet] never throws and always ends with the loading flag
    down. *)
Lemma connectWallet_returns (s : State) (w : World) (options : option string) :
  exists s1 w1,
    connectWallet options (s, w) = (Returned tt, (s1, w1))
    /\ isLoading s1 = false.
Proof.
  unfold connectWallet, try_catch_finally, try_finally, try_catch, bind, lift.
  simpl.
  destruct (new_PublicKey "11111111111111111111111111111111") as [pk|e];
    simpl; [|now do 2 eexists].
  write_item; simpl; [|now do 2 eexists].
  write_item; simpl; now do 2 eexists.
Qed.

(** C6, as the provider has it.  For every execution of [connectWallet]
    (whatever state and environment it starts from, and whether it succeeds
    or fails) followed immediately by a [disconnectWallet] during which
    [SecureStore] rejects no deletion, the provider ends with [isConnected]
    false (in its initial state) and the three persisted keys absent.
    [disconnectWallet] makes no call to a wallet SDK or to any remote
    service: its only external calls are the three [SecureStore] deletions,
    so there is no remote outcome the clean-up could be gated on. *)
Theorem connect_then_disconnect :
  forall (s : State) (w : World) (options : option string)
         (r1 : outcome unit) (s1 : State) (w1 : World),
    connectWallet options (s, w) = (r1, (s1, w1)) ->
    reliable w1 ->
    exists s2 w2,
      disconnectWallet (s1, w1) = (Returned tt, (s2, w2))
      /\ isConnected s2 = false
      /\ s2 = initialState
      /\ keysAbsent (secureStore w2)
      /\ externalCalls w2
         = [DeleteItem "transactions"; DeleteItem "lastActivity";
            DeleteItem "walletAddress"] ++ externalCalls w1.
Proof.
  intros s w options r1 s1 w1 Hconnect Hw1.
  destruct (connectWallet_returns s w options) as (s1' & w1' & E & Hload).
  rewrite E in Hconnect. injection Hconnect as <- <- <-.
  exists (cleared s1'), (afterDeletes w1').
  split; [now apply clearSession_ok|].
  split; [reflexivity|].
  split; [unfold cleared; now rewrite Hload|].
  split; [apply keysAbsent_afterDeletes|reflexivity].
Qed.

(** When a deletion is rejected, [clearSession] swallows the error and
    leaves the state as it was. *)
Lemma clearSession_rejected (s : State) (w : World) (e : thrown) :
  (exists fs, storeFaults w = Some e :: fs) ->
  exists w', clearSession (s, w) = (Returned tt, (s, w'))
             /\ secureStore w' = secureStore w.
Proof.
  intros [fs Hfs]. unfold clearSession, try_catch, bind.
  unfold deleteItemAsync at 1. unfold storeCall, nextFault. simpl.
  rewrite Hfs. simpl. eexists. split; reflexivity.
Qed.

(** *** [sendTransaction] *)

Lemma sendTransaction_returned (s s' : State) (w w' : World)
    (r : string) (a : number) (tk : string) (o : option string) (txId : string) :
  sendTransaction r a tk o (s, w) = (Returned txId, (s', w')) ->
  isConnected s = true
  /\ transactions s' = newTransaction r a tk w :: transactions s
  /\ txId = id (newTransaction r a tk w)
  /\ secureStore w' !! "transactions"
     = Some (JSON_stringify (newTransaction r a tk w :: transactions s)).
Proof.
  unfold sendTransaction, bind, getState. simpl.
  destruct (isConnected s); simpl; [|discriminate].
  unfold try_catch_finally, try_finally, try_catch, bind. simpl.
  write_item; simpl; [|discriminate].
  write_item; simpl; [|discriminate].
  intros [= <- <- <-]. simpl. repeat split.
  rewrite lookup_insert_ne by discriminate. apply lookup_insert_eq.
Qed.

Lemma sendTransaction_connected (s : State) (w : World)
    (r : string) (a : number) (tk : string) (o : option string) :
  isConnected s = true ->
  reliable w ->
  exists s' w',
    sendTransaction r a tk o (s, w)
    = (Returned (id (newTransaction r a tk w)), (s', w'))
    /\ transactions s' = newTransaction r a tk w :: transactions s.
Proof.
  intros Hc Hw. unfold sendTransaction, bind, getState. simpl.
  rewrite Hc. simpl.
  unfold try_catch_finally, try_finally, try_catch, bind. simpl.
  rewrite setItemAsync_ok by auto with reliable. simpl.
  rewrite setItemAsync_ok by auto with reliable. simpl.
  now do 2 eexists.
Qed.

(** Every record a successful [sendTransaction] appends is a pending
    send. *)
Lemma sendTransaction_status (r : string) (a : number) (tk : string) (w : World) :
  status (newTransaction r a tk w) = Pending
  /\ type (newTransaction r a tk w) = TxSend.
Proof. unfold newTransaction. simpl. now destruct (String.eqb tk "USDC"). Qed.

(** C5.  After every successful [sendTransaction] the record it created
    (carrying the returned identifier and the recipient, amount and token of
    the call) is the first element of [transactions] and the previous list
    follows it unchanged; hence after any sequence of successful sends the
    list is the new records, latest send first, followed by the list the
    sequence started from. *)
Theorem sendTransaction_newest_first :
  (forall (s s' : State) (w w' : World) (r : string) (a : number)
          (tk : string) (o : option string) (txId : string),
      sendTransaction r a tk o (s, w) = (Returned txId, (s', w')) ->
      exists newTx,
        transactions s' = newTx :: transactions s
        /\ id newTx = txId
        /\ argsOf newTx = (Some r, a, tk))
  /\ (forall (calls : list SendArgs) (c c' : State * World)
             (txIds : list string),
        sendAll calls c = (Returned txIds, c') ->
        exists news,
          transactions (fst c') = news ++ transactions (fst c)
          /\ map id news = rev txIds
          /\ map argsOf news = rev (map argsSent calls)).
Proof.
  assert (Hone :
    forall (s s' : State) (w w' : World) (r : string) (a : number)
           (tk : string) (o : option string) (txId : string),
      sendTransaction r a tk o (s, w) = (Returned txId, (s', w')) ->
      exists newTx,
        transactions s' = newTx :: transactions s
        /\ id newTx = txId
        /\ argsOf newTx = (Some r, a, tk)).
  { intros s s' w w' r a tk o txId Hsend.
    apply sendTransaction_returned in Hsend as (_ & Htx & Hid & _).
    exists (newTransaction r a tk w). now rewrite Hid. }
  split; [exact Hone|].
  induction calls as [|call calls IH]; intros c c' txIds Hall.
  - simpl in Hall. injection Hall as <- <-. now exists [].
  - simpl in Hall. unfold bind in Hall.
    destruct c as [s w].
    destruct (sendTransaction (to call) (sum call) (mint call) (opts call) (s, w))
      as [[txId|e] [s1 w1]] eqn:Hsend; [|discriminate].
    fold (@bind (list string) (list string)) in Hall.
    destruct (sendAll calls (s1, w1)) as [[rest|e] c2] eqn:Hrest;
      [|discriminate].
    simpl in Hall. injection Hall as <- <-.
    apply Hone in Hsend as (newTx & Htx & Hid & Hargs).
    apply IH in Hrest as (news & Hnews & Hids & Hsent).
    exists (news ++ [newTx]). simpl in *.
    rewrite Hnews, Htx, <- app_assoc. split; [reflexivity|].
    rewrite !map_app, Hids, Hsent. simpl. rewrite Hid, Hargs.
    now split.
Qed.


(** *** The SDK-backed provider on the same inputs *)

(** With nothing persisted, its [restoreSession] changes nothing. *)
Lemma sdk_restoreSession_nothing_saved (s : State) (w : World) :
  reliable w ->
  keysAbsent (secureStore w) ->
  SdkProvider.restoreSession (s, w) = (Returned tt, (s, afterReads w)).
Proof.
  intros Hw (Ha & Hl & Ht).
  unfold SdkProvider.restoreSession, try_catch, bind.
  rewrite getItemAsync_ok by assumption.
  rewrite getItemAsync_ok by auto with reliable.
  rewrite getItemAsync_ok by auto with reliable.
  simpl. rewrite Ha, Hl, Ht. simpl. now destruct s.
Qed.

(** X12.  On a persisted address that is not a valid one, the SDK-backed
    [restoreSession] clears the session: the three keys are deleted and the
    state is reset; a second call then changes nothing. *)
Lemma sdk_restoreSession_invalid_clears (s : State) (w : World)
    (a : string) (e : thrown) :
  reliable w ->
  secureStore w !! "walletAddress" = Some a ->
  str_truthy a = true ->
  new_PublicKey a = Thrown e ->
  SdkProvider.restoreSession (s, w)
  = (Returned tt, (cleared s, afterDeletes (afterReads w)))
  /\ keysAbsent (secureStore (afterDeletes (afterReads w)))
  /\ SdkProvider.restoreSession (cleared s, afterDeletes (afterReads w))
     = (Returned tt, (cleared s, afterReads (afterDeletes (afterReads w)))).
Proof.
  intros Hw Ha Hta Hbad.
  assert (Hfirst :
    SdkProvider.restoreSession (s, w)
    = (Returned tt, (cleared s, afterDeletes (afterReads w)))).
  { unfold SdkProvider.restoreSession, try_catch at 1, bind.
    rewrite getItemAsync_ok by assumption.
    rewrite getItemAsync_ok by auto with reliable.
    rewrite getItemAsync_ok by auto with reliable.
    simpl. rewrite Ha, Hta. unfold try_catch at 1, lift, bind. rewrite Hbad.
    unfold console_error, ret.
    rewrite clearSession_ok by auto 10 with reliable.
    reflexivity. }
  split; [exact Hfirst|].
  split; [apply keysAbsent_afterDeletes|].
  apply sdk_restoreSession_nothing_saved.
  - unfold afterDeletes, afterReads. auto 10 with reliable.
  - apply keysAbsent_afterDeletes.
Qed.



(** X15.  The SDK-backed [disconnectWallet] clears the session whether the
    SDK's [disconnect] returns or throws. *)
Lemma sdk_disconnectWallet_clears (s : State) (w : World) :
  reliable w ->
  exists w',
    SdkProvider.disconnectWallet (s, w) = (Returned tt, (cleared s, w'))
    /\ keysAbsent (secureStore w').
Proof.
  intros Hw.
  unfold SdkProvider.disconnectWallet, bind, try_catch, SdkProvider.sdkCall.
  simpl.
  destruct (sdkFaults w) as [|[e|] fs]; simpl;
    (rewrite clearSession_ok by exact Hw);
    eexists; (split; [reflexivity|apply keysAbsent_afterDeletes]).
Qed.

End ProviderFacts.

(** ** Session keys *)

Lemma num_lt_not_ge (a b : number) :
  is_NaN a = false -> is_NaN b = false -> num_lt a b = negb (num_ge a b).
Proof.
  destruct a, b; simpl; try discriminate; try reflexivity.
Qed.

Lemma num_gt_not_le (a b : number) :
  is_NaN a = false -> is_NaN b = false -> num_gt a b = negb (num_le a b).
Proof.
  destruct a, b; simpl; try discriminate; try reflexivity.
Qed.

Lemma num_truthy_not_zero (m : number) :
  is_NaN m = false -> num_truthy m = negb (is_zero m).
Proof. destruct m; simpl; try discriminate; reflexivity. Qed.

Lemma equals_eq (a b : PublicKey) : equals a b = true <-> a = b.
Proof.
  destruct a as [x], b as [y]. unfold equals. simpl.
  rewrite N.eqb_eq. split; [now intros -> | now intros [= ->]].
Qed.

Lemma some_equals (x : PublicKey) (l : list PublicKey) :
  some (fun y => equals y x) l = true <-> In x l.
Proof.
  unfold some. rewrite existsb_exists. split.
  - intros (y & Hin & Heq). apply equals_eq in Heq. now subst.
  - intros Hin. exists x. split; [assumption|]. now apply equals_eq.
Qed.

Lemma checks_pass (b1 b2 b3 b4 : bool) :
  (if b1 then false else if b2 then false else if b3 then false
   else if b4 then false else true) = true
  <-> b1 = false /\ b2 = false /\ b3 = false /\ b4 = false.
Proof. destruct b1, b2, b3, b4; simpl; intuition discriminate. Qed.

(** An expired key is rejected, whatever else holds. *)
Lemma expired_rejected (sk : SessionKey) (r : PublicKey) (a : number)
    (t : PublicKey) (now : Z) :
  num_lt (expiresAt sk) (num_of_Z now) = true ->
  validateSessionKeyPermissions sk r a t now = false.
Proof. intros Hexp. unfold validateSessionKeyPermissions. now rewrite Hexp. Qed.

(** A limit of zero is no limit. *)
Lemma zero_limit_ignored (sk : SessionKey) (r : PublicKey) (a : number)
    (t : PublicKey) (now : Z) (m : number) :
  maxAmount (permissions sk) = Some m ->
  is_zero m = true ->
  validateSessionKeyPermissions sk r a t now
  = validateSessionKeyPermissions
      {| sk_publicKey := sk_publicKey sk;
         permissions :=
           {| maxAmount := None;
              allowedRecipients := allowedRecipients (permissions sk);
              allowedTokens := allowedTokens (permissions sk);
              allowedPrograms := allowedPrograms (permissions sk) |};
         createdAt := createdAt sk;
         expiresAt := expiresAt sk |}
      r a t now.
Proof.
  intros Hm Hz. unfold validateSessionKeyPermissions. simpl. rewrite Hm.
  destruct m; simpl in *; try discriminate. now rewrite Hz.
Qed.

(** What the function computes, for all numbers. *)
Lemma validateSessionKeyPermissions_exact (sk : SessionKey) (r : PublicKey)
    (a : number) (t : PublicKey) (now : Z) :
  validateSessionKeyPermissions sk r a t now = true
  <-> num_lt (expiresAt sk) (num_of_Z now) = false
      /\ match maxAmount (permissions sk) with
         | None => True
         | Some m => num_truthy m = false \/ num_gt a m = false
         end
      /\ recipientAllowed sk r
      /\ tokenAllowed sk t.
Proof.
  unfold validateSessionKeyPermissions, recipientAllowed, tokenAllowed.
  rewrite checks_pass.
  destruct (maxAmount (permissions sk)) as [m|],
           (allowedRecipients (permissions sk)) as [rs|],
           (allowedTokens (permissions sk)) as [ts|];
    rewrite ?negb_false_iff, ?some_equals, ?andb_false_iff;
    intuition discriminate.
Qed.

(** C10, for numbers that are not [NaN].  For every session key,
    recipient, amount, token and current time such that the key's expiry,
    the amount and the limit (when one is set) are not [NaN],
    [validateSessionKeyPermissions] returns true if and only if the key is
    unexpired ([expiresAt >= now]), and [maxAmount] is unset or zero or
    [amount <= maxAmount], and [allowedRecipients] is unset or contains the
    recipient, and [allowedTokens] is unset or contains the token. *)
Theorem validateSessionKeyPermissions_iff :
  forall (sk : SessionKey) (r : PublicKey) (a : number) (t : PublicKey)
         (now : Z),
    noNaN sk a ->
    validateSessionKeyPermissions sk r a t now = true
    <-> permitted sk r a t now.
Proof.
  intros sk r a t now (Hex & Ha & Hm).
  unfold validateSessionKeyPermissions, permitted, unexpired, withinLimit,
    recipientAllowed, tokenAllowed.
  rewrite checks_pass.
  rewrite num_lt_not_ge by (assumption || reflexivity).
  destruct (maxAmount (permissions sk)) as [m|],
           (allowedRecipients (permissions sk)) as [rs|],
           (allowedTokens (permissions sk)) as [ts|];
    rewrite ?num_truthy_not_zero, ?num_gt_not_le by assumption;
    rewrite ?negb_false_iff, ?some_equals;
    try destruct (is_zero m); try destruct (num_le a m); simpl;
    intuition discriminate.
Qed.

(** ** Runs on the reference platform *)

Lemma reference_system_key :
  Reference.PublicKey_of_string "11111111111111111111111111111111"
  = Returned (mkPublicKey 0).
Proof. vm_compute. reflexivity. Qed.

(** No string that starts with "LazorKitWallet" is a public key: the
    letter l is not a base-58 digit. *)
Lemma simulated_address_invalid (suffix : string) :
  valid_address (H := Reference.platform) ("LazorKitWallet" +:+ suffix) = false.
Proof. reflexivity. Qed.

(** C1, on the code.  With the address "not-a-public-key" persisted,
    [restoreSession] of the fresh provider returns with [isConnected] false
    and the error "Failed to restore session", but it deletes nothing: the
    three keys are still in the store, and the rejected address is left in
    [walletAddress].  A second call ends in the same state. *)
Theorem restoreSession_invalid_address_keeps_keys :
  valid_address (H := Reference.platform) "not-a-public-key" = false
  /\ restoreSession (H := Reference.platform) (initialState, corruptWorld)
     = (Returned tt, (staleState, afterReads corruptWorld))
  /\ secureStore (afterReads corruptWorld) = corruptStore
  /\ corruptStore !! "walletAddress" = Some "not-a-public-key"
  /\ corruptStore !! "lastActivity" = Some "1700000000000"
  /\ corruptStore !! "transactions" = Some "[]"
  /\ restoreSession (H := Reference.platform)
       (staleState, afterReads corruptWorld)
     = (Returned tt, (staleState, afterReads (afterReads corruptWorld))).
Proof. vm_compute. repeat split. Qed.


(** C8, on the code.  From the fresh provider, with a store that accepts
    every call, [connectWallet] ends with [isConnected] true and with an
    address, in the state and under the [walletAddress] key, that is not a
    syntactically valid chain address; a fresh provider that later restores
    this store ends disconnected with the error "Failed to restore
    session". *)
Theorem connectWallet_address_invalid :
  forall (m : gmap string string) (sdk : list (option thrown))
         (times : list Z) (draws : list string) (log : list ExternalCall),
  exists s' w' a,
    connectWallet (H := Reference.platform) None
      (initialState, mkWorld m [] sdk times draws log)
    = (Returned tt, (s', w'))
    /\ isConnected s' = true
    /\ walletAddress s' = Some a
    /\ secureStore w' !! "walletAddress" = Some a
    /\ valid_address (H := Reference.platform) a = false
    /\ exists s'' w'',
         restoreSession (H := Reference.platform) (initialState, w')
         = (Returned tt, (s'', w''))
         /\ isConnected s'' = false
         /\ error s'' = Some "Failed to restore session".
Proof.
  intros m sdk times draws log.
  unfold connectWallet, try_catch_finally, try_finally, try_catch, bind, lift.
  simpl.
  do 3 eexists. split; [reflexivity|]. simpl.
  split; [reflexivity|]. split; [reflexivity|].
  split; [rewrite lookup_insert_ne by discriminate; apply lookup_insert_eq|].
  split; [reflexivity|].
  unfold restoreSession, try_catch, bind, getItemAsync, storeCall. simpl.
  rewrite lookup_insert_ne by discriminate. rewrite lookup_insert_eq.
  simpl. now do 2 eexists.
Qed.


(** C10 fails on the code: with a limit of 100, the amount [NaN] is let
    through, though [NaN <= 100] is false and the limit is neither unset
    nor zero. *)
Lemma validateSessionKeyPermissions_NaN_amount :
  validateSessionKeyPermissions cappedKey (mkPublicKey 2) NaN (mkPublicKey 3) 1000
  = true
  /\ ~ permitted cappedKey (mkPublicKey 2) NaN (mkPublicKey 3) 1000.
Proof.
  split; [reflexivity|].
  intros (_ & [Hzero|Hle] & _); discriminate.
Qed.

(** C6 as written fails when the keychain rejects a deletion: the wallet
    connects, [disconnectWallet] returns, and the provider is still
    connected with its address persisted.  The state is reset after the
    three deletions inside the same [try], so a rejected deletion skips
    it. *)
Lemma connect_then_disconnect_deletion_rejected :
  connectWallet (H := Reference.platform) None (initialState, lockingWorld)
  = (Returned tt, afterLockedConnect)
  /\ disconnectWallet afterLockedConnect
     = (Returned tt, afterLockedDisconnect)
  /\ isConnected (fst afterLockedDisconnect) = true
  /\ secureStore (snd afterLockedDisconnect) !! "walletAddress"
     = Some "LazorKitWalletk3x9q2m7p"
  /\ ~ (isConnected (fst afterLockedDisconnect) = false
        /\ keysAbsent (secureStore (snd afterLockedDisconnect))).
Proof.
  split; [vm_compute; reflexivity|].
  split; [vm_compute; reflexivity|].
  split; [vm_compute; reflexivity|].
  split; [vm_compute; reflexivity|].
  intros [Hdis _]. vm_compute in Hdis. discriminate.
Qed.

(** ** The theorems at concrete inputs *)



Lemma restoreSession_valid_witness :
  reliable goodWorld
  /\ Reference.PublicKey_of_string "11111111111111111111111111111111"
     = Returned (mkPublicKey 0)
  /\ Reference.parse (Reference.stringify [demoTx; olderTx])
     = Returned [demoTx; olderTx]
  /\ exists s',
       restoreSession (H := Reference.platform) (initialState, goodWorld)
       = (Returned tt, (s', afterReads goodWorld))
       /\ isConnected s' = true
       /\ walletAddress s' = Some "11111111111111111111111111111111"
       /\ publicKey s' = Some (mkPublicKey 0)
       /\ transactions s' = [demoTx; olderTx]
       /\ lastActivity s' = Some (num_of_Z 1700000000000)
       /\ secureStore (afterReads goodWorld) = secureStore goodWorld.
Proof.
  split; [constructor|].
  split; [vm_compute; reflexivity|].
  split; [vm_compute; reflexivity|].
  apply (restoreSession_valid (H := Reference.platform) initialState goodWorld
           "11111111111111111111111111111111"
           (Reference.stringify [demoTx; olderTx]) (mkPublicKey 0)
           [demoTx; olderTx]).
  - constructor.
  - vm_compute; reflexivity.
  - vm_compute; reflexivity.
  - vm_compute; reflexivity.
  - vm_compute; reflexivity.
Defined.

Lemma restoreSession_corrupted_transactions_witness :
  Reference.parse "[{" = Thrown (Error "JSON Parse error")
  /\ exists s' w',
       restoreSession (H := Reference.platform) (initialState, brokenWorld)
       = (Returned tt, (s', w'))
       /\ (fullyConnected "11111111111111111111111111111111" (mkPublicKey 0) s'
           /\ transactions s' = []
           \/ fullyDisconnected s')
       /\ secureStore w' = secureStore brokenWorld.
Proof.
  split; [reflexivity|].
  apply (restoreSession_corrupted_transactions (H := Reference.platform)
           brokenWorld "11111111111111111111111111111111" "[{"
           (mkPublicKey 0) (Error "JSON Parse error")).
  - vm_compute; reflexivity.
  - vm_compute; reflexivity.
  - vm_compute; reflexivity.
  - reflexivity.
Defined.

Lemma sendTransaction_newest_first_witness :
  sendAll (H := Reference.platform) twoSends (connectedState, busyWorld)
  = (Returned ["tx_k3x9q2m7p4tz"; "tx_8fj2n5v1c0aa"],
     snd (sendAll (H := Reference.platform) twoSends
            (connectedState, busyWorld)))
  /\ exists news,
       transactions
         (fst (snd (sendAll (H := Reference.platform) twoSends
                      (connectedState, busyWorld))))
       = news ++ transactions connectedState
       /\ map id news = rev ["tx_k3x9q2m7p4tz"; "tx_8fj2n5v1c0aa"]
       /\ map argsOf news = rev (map argsSent twoSends).
Proof.
  split; [vm_compute; reflexivity|].
  apply (proj2 (sendTransaction_newest_first (H := Reference.platform))
           twoSends (connectedState, busyWorld)
           (snd (sendAll (H := Reference.platform) twoSends
                   (connectedState, busyWorld)))
           ["tx_k3x9q2m7p4tz"; "tx_8fj2n5v1c0aa"]).
  vm_compute; reflexivity.
Defined.

Lemma connect_then_disconnect_witness :
  connectWallet (H := Reference.platform) None (initialState, busyWorld)
  = (Returned tt, (fst afterConnect, snd afterConnect))
  /\ isConnected (fst afterConnect) = true
  /\ secureStore (snd afterConnect) !! "walletAddress"
     = Some "LazorKitWalletk3x9q2m7p"
  /\ reliable (snd afterConnect)
  /\ exists s2 w2,
       disconnectWallet (fst afterConnect, snd afterConnect)
       = (Returned tt, (s2, w2))
       /\ isConnected s2 = false
       /\ s2 = initialState
       /\ keysAbsent (secureStore w2)
       /\ externalCalls w2
          = [DeleteItem "transactions"; DeleteItem "lastActivity";
             DeleteItem "walletAddress"]
            ++ externalCalls (snd afterConnect).
Proof.
  split; [vm_compute; reflexivity|].
  split; [vm_compute; reflexivity|].
  split; [vm_compute; reflexivity|].
  split; [vm_compute; constructor|].
  apply (connect_then_disconnect (H := Reference.platform)
           initialState busyWorld None (Returned tt)).
  - vm_compute; reflexivity.
  - vm_compute; constructor.
Defined.

Lemma validateSessionKeyPermissions_iff_witness :
  noNaN cappedKey (Fin 50)
  /\ (validateSessionKeyPermissions cappedKey (mkPublicKey 2) (Fin 50)
        (mkPublicKey 3) 1000 = true
      <-> permitted cappedKey (mkPublicKey 2) (Fin 50) (mkPublicKey 3) 1000).
Proof.
  split; [repeat split|].
  apply (validateSessionKeyPermissions_iff cappedKey (mkPublicKey 2) (Fin 50)
           (mkPublicKey 3) 1000).
  repeat split.
Defined.

(** * Further properties of the provider *)

(** Case analysis on the next [SecureStore] call of the goal. *)
Ltac store_step :=
  match goal with
  | |- context [getItemAsync ?k (?s, ?w)] =>
      let E := fresh "E" in
      let e := fresh "e" in
      destruct (getItemAsync_cases k s w) as [E|[e E]]; rewrite E; clear E
  | |- context [setItemAsync ?k ?v (?s, ?w)] =>
      let E := fresh "E" in
      let e := fresh "e" in
      destruct (setItemAsync_cases k v s w) as [E|[e E]]; rewrite E; clear E
  | |- context [deleteItemAsync ?k (?s, ?w)] =>
      let E := fresh "E" in
      let e := fresh "e" in
      destruct (deleteItemAsync_cases k s w) as [E|[e E]]; rewrite E; clear E
  end.

(** The same, when no call is rejected. *)
Ltac store_ok :=
  first
    [ rewrite getItemAsync_ok by auto 10 with reliable
    | rewrite setItemAsync_ok by auto 10 with reliable
    | rewrite deleteItemAsync_ok by auto 10 with reliable ].

Lemma deleteItemAsync_split key (s : State) (w : World) :
  nextFault w = None
  /\ deleteItemAsync key (s, w)
     = (Returned tt,
        (s, logged (DeleteItem key) (delete key (secureStore w)) w))
  \/ exists e,
      nextFault w = Some e
      /\ deleteItemAsync key (s, w)
         = (Thrown e, (s, logged (DeleteItem key) (secureStore w) w)).
Proof.
  unfold deleteItemAsync, storeCall. simpl.
  destruct (nextFault w) as [e|]; [right; now exists e | now left].
Qed.

(** Case analysis on the next deletion, keeping what the store answered. *)
Ltac delete_step :=
  match goal with
  | |- context [deleteItemAsync ?k (?s, ?w)] =>
      let E := fresh "E" in
      let F := fresh "F" in
      let e := fresh "e" in
      destruct (deleteItemAsync_split k s w) as [[F E]|[e [F E]]];
      rewrite E; clear E
  end.

Section ProviderMore.
Context `{Platform}.

(** X1.  [restoreSession] never throws and never writes: for every state,
    every store content and every failure of the store, it returns, the
    persisted keys are as they were, and so is the loading flag. *)
Theorem restoreSession_safe :
  forall (s : State) (w : World),
  exists s' w',
    restoreSession (s, w) = (Returned tt, (s', w'))
    /\ secureStore w' = secureStore w
    /\ isLoading s' = isLoading s.
Proof.
  intros s w. unfold restoreSession, try_catch, bind.
  do 3 (store_step; [|now do 2 eexists]).
  unfold when_truthy, lift. simpl.
  destruct (secureStore w !! "walletAddress") as [a|];
    [destruct (str_truthy a); [destruct (new_PublicKey a)|]|];
    simpl; try (now do 2 eexists);
    (destruct (secureStore w !! "lastActivity") as [t|];
     [destruct (str_truthy t)|]);
    simpl;
    (destruct (secureStore w !! "transactions") as [j|];
     [destruct (str_truthy j); [destruct (JSON_parse j)|]|]);
    simpl; now do 2 eexists.
Qed.

(** X2.  First launch: with none of the three keys persisted and reads
    that are not rejected, [restoreSession] leaves the state exactly as it
    was; in particular it sets no error. *)
Theorem restoreSession_nothing_saved :
  forall (s : State) (w : World),
    reliable w ->
    keysAbsent (secureStore w) ->
    restoreSession (s, w) = (Returned tt, (s, afterReads w)).
Proof.
  intros s w Hw (Ha & Hl & Ht).
  unfold restoreSession, try_catch, bind.
  do 3 store_ok. simpl. rewrite Ha, Hl, Ht. simpl. now destruct s.
Qed.

(** X3.  From a disconnected state and with reads that are not rejected,
    [restoreSession] ends connected exactly when the [walletAddress] key
    holds a string that [isValidSolanaAddress] accepts. *)
Theorem restoreSession_connects_iff_valid :
  forall (s : State) (w : World),
    reliable w ->
    isConnected s = false ->
    exists s' w',
      restoreSession (s, w) = (Returned tt, (s', w'))
      /\ (isConnected s' = true
          <-> exists a, secureStore w !! "walletAddress" = Some a
                        /\ isValidSolanaAddress a = true).
Proof.
  intros s w Hw Hdis.
  unfold restoreSession, try_catch, bind.
  do 3 store_ok. unfold when_truthy, lift, isValidSolanaAddress. simpl.
  destruct (secureStore w !! "walletAddress") as [a|] eqn:Ha.
  - destruct a as [|c a'].
    + destruct new_PublicKey_empty as [e He]. simpl.
      destruct (secureStore w !! "lastActivity") as [t|];
        [destruct (str_truthy t)|];
        simpl;
        (destruct (secureStore w !! "transactions") as [j|];
         [destruct (str_truthy j); [destruct (JSON_parse j)|]|]);
        simpl; do 2 eexists; (split; [reflexivity|]); simpl;
        (split; [congruence|]);
        intros (a0 & [= <-] & Hv); rewrite He in Hv; discriminate.
    + simpl. destruct (new_PublicKey (String c a')) as [pk|e] eqn:Hpk; simpl.
      * destruct (secureStore w !! "lastActivity") as [t|];
          [destruct (str_truthy t)|];
          simpl;
          (destruct (secureStore w !! "transactions") as [j|];
           [destruct (str_truthy j); [destruct (JSON_parse j)|]|]);
          simpl; do 2 eexists; (split; [reflexivity|]); simpl;
          (split; [intros _; eexists; split; [reflexivity|];
                   now rewrite Hpk
                  |reflexivity]).
      * do 2 eexists. split; [reflexivity|]. simpl. split; [congruence|].
        intros (a0 & [= <-] & Hv). rewrite Hpk in Hv. discriminate.
  - simpl.
    destruct (secureStore w !! "lastActivity") as [t|];
      [destruct (str_truthy t)|];
      simpl;
      (destruct (secureStore w !! "transactions") as [j|];
       [destruct (str_truthy j); [destruct (JSON_parse j)|]|]);
      simpl; do 2 eexists; (split; [reflexivity|]); simpl;
      (split; [congruence|]); intros (a0 & [=] & _).
Qed.


(** X5.  [clearSession] touches no key but its own three: whatever
    happens, every other key of the store keeps its value. *)
Theorem clearSession_other_keys :
  forall (s : State) (w : World) (r : outcome unit) (c' : State * World)
         (k : string),
    clearSession (s, w) = (r, c') ->
    k <> "walletAddress" -> k <> "lastActivity" -> k <> "transactions" ->
    secureStore (snd c') !! k = secureStore w !! k.
Proof.
  intros s w r c' k Hrun Hk1 Hk2 Hk3. revert Hrun.
  unfold clearSession, try_catch, bind.
  store_step; [|intros [= <- <-]; reflexivity].
  store_step;
    [|intros [= <- <-]; simpl; now rewrite lookup_delete_ne by congruence].
  store_step;
    [|intros [= <- <-]; simpl; now rewrite !lookup_delete_ne by congruence].
  simpl. intros [= <- <-]. simpl.
  now rewrite !lookup_delete_ne by congruence.
Qed.

(** X6.  [connectWallet] never throws and always lowers the loading
    flag.  When it ends connected, no error is set, the address in the
    state is the one persisted under [walletAddress], and [lastActivity] is
    persisted; when it ends disconnected, an error message is set. *)
Theorem connectWallet_outcome :
  forall (s : State) (w : World) (options : option string),
  exists s' w',
    connectWallet options (s, w) = (Returned tt, (s', w'))
    /\ isLoading s' = false
    /\ (isConnected s' = true ->
        error s' = None
        /\ (exists a, walletAddress s' = Some a
                      /\ secureStore w' !! "walletAddress" = Some a)
        /\ is_Some (secureStore w' !! "lastActivity"))
    /\ (isConnected s' = false -> is_Some (error s')).
Proof.
  intros s w options.
  unfold connectWallet, try_catch_finally, try_finally, try_catch, bind, lift.
  simpl.
  destruct (new_PublicKey "11111111111111111111111111111111") as [pk|e];
    simpl.
  2:{ do 2 eexists. split; [reflexivity|]. simpl.
      split; [reflexivity|]. split; [discriminate|]. intros _. now eexists. }
  store_step; simpl.
  2:{ do 2 eexists. split; [reflexivity|]. simpl.
      split; [reflexivity|]. split; [discriminate|]. intros _. now eexists. }
  store_step; simpl.
  2:{ do 2 eexists. split; [reflexivity|]. simpl.
      split; [reflexivity|]. split; [discriminate|]. intros _. now eexists. }
  do 2 eexists. split; [reflexivity|]. simpl.
  split; [reflexivity|]. split; [|discriminate]. intros _.
  split; [reflexivity|]. split.
  - eexists. split; [reflexivity|].
    rewrite lookup_insert_ne by discriminate. apply lookup_insert_eq.
  - eexists. apply lookup_insert_eq.
Qed.


(** X8.  When the store rejects the write of the transaction list,
    [sendTransaction] throws what the store threw, records its message and
    lowers the loading flag, but the new record stays in [transactions]
    although nothing was persisted: memory and store then differ. *)
Theorem sendTransaction_write_rejected :
  forall (s : State) (w : World) (r : string) (a : number) (tk : string)
         (o : option string) (e : thrown),
    isConnected s = true ->
    nextFault w = Some e ->
    exists s' w',
      sendTransaction r a tk o (s, w) = (Thrown e, (s', w'))
      /\ transactions s' = newTransaction r a tk w :: transactions s
      /\ secureStore w' = secureStore w
      /\ error s' = Some (messageOr e "Failed to send transaction")
      /\ isLoading s' = false.
Proof.
  intros s w r a tk o e Hc He.
  unfold sendTransaction, bind, getState. simpl. rewrite Hc. simpl.
  unfold try_catch_finally, try_finally, try_catch, bind. simpl.
  unfold setItemAsync at 1. unfold storeCall. simpl.
  replace (nextFault (tick (tick (drawn w)))) with (Some e) by (now rewrite <- He).
  simpl. do 2 eexists. split; [reflexivity|]. now repeat split.
Qed.

(** [sendTransaction] is the callback of the current render. *)
Lemma sendTransaction_current (s : State) (w : World) (r : string)
    (a : number) (tk : string) (o : option string) :
  sendTransaction r a tk o (s, w)
  = sendTransactionHeld (isConnected s) (transactions s) r a tk o (s, w).
Proof. reflexivity. Qed.

(** What a successful send through a held callback leaves in memory and in
    the store. *)
Lemma sendTransactionHeld_store (c : bool) (held : list Transaction)
    (s s' : State) (w w' : World) (r : string) (a : number) (tk : string)
    (o : option string) (txId : string) :
  sendTransactionHeld c held r a tk o (s, w) = (Returned txId, (s', w')) ->
  transactions s' = newTransaction r a tk w :: transactions s
  /\ exists t,
       secureStore w'
       = <["lastActivity" := Z_toString t]>
           (<["transactions" :=
                JSON_stringify (newTransaction r a tk w :: held)]>
              (secureStore w)).
Proof.
  unfold sendTransactionHeld, bind.
  destruct c; simpl; [|discriminate].
  unfold try_catch_finally, try_finally, try_catch, bind. simpl.
  store_step; simpl; [|discriminate].
  store_step; simpl; [|discriminate].
  intros [= <- <- <-]. simpl. split; [reflexivity|]. now eexists.
Qed.

(** X9.  What a successful [sendTransaction] persists.  The call goes
    through a callback that holds the [transactions] of the render that
    made it.  Memory gets the new record in front of the live list; the
    [transactions] key gets [JSON.stringify] of the new record in front of
    the held list; the [lastActivity] key gets a decimal timestamp; no other
    key changes.  So the store mirrors the memory when the callback is the
    one of the current render (the held list is the live one). *)
Theorem sendTransaction_persists_held :
  forall (c : bool) (held : list Transaction) (s s' : State) (w w' : World)
         (r : string) (a : number) (tk : string) (o : option string)
         (txId : string),
    sendTransactionHeld c held r a tk o (s, w) = (Returned txId, (s', w')) ->
    transactions s' = newTransaction r a tk w :: transactions s
    /\ secureStore w' !! "transactions"
       = Some (JSON_stringify (newTransaction r a tk w :: held))
    /\ (exists t, secureStore w' !! "lastActivity" = Some (Z_toString t))
    /\ (forall k, k <> "transactions" -> k <> "lastActivity" ->
                  secureStore w' !! k = secureStore w !! k)
    /\ (held = transactions s ->
        secureStore w' !! "transactions"
        = Some (JSON_stringify (transactions s'))).
Proof.
  intros c held s s' w w' r a tk o txId Hsend.
  apply sendTransactionHeld_store in Hsend as (Hmem & t & ->).
  assert (Hkey :
    <["lastActivity" := Z_toString t]>
      (<["transactions" := JSON_stringify (newTransaction r a tk w :: held)]>
         (secureStore w)) !! "transactions"
    = Some (JSON_stringify (newTransaction r a tk w :: held))).
  { rewrite lookup_insert_ne by discriminate. apply lookup_insert_eq. }
  split; [exact Hmem|]. split; [exact Hkey|]. split; [|split].
  - exists t. apply lookup_insert_eq.
  - intros k Hk1 Hk2. now rewrite !lookup_insert_ne by congruence.
  - intros ->. now rewrite Hkey, Hmem.
Qed.

(** X10.  Round trip through the store: when a valid address is persisted
    and [JSON.parse] reads back what [JSON.stringify] wrote, a fresh
    provider that restores the store left by a successful [sendTransaction]
    ends connected with the new record in front of the list the callback
    held.  That is the list the sender has in memory exactly when the
    callback was the one of the current render; through a callback kept
    from an earlier render the records sent in between are not restored. *)
Theorem send_then_restore :
  forall (c : bool) (held : list Transaction) (s s' : State) (w w' : World)
         (r : string) (a : number) (tk : string) (o : option string)
         (txId addr : string) (pk : PublicKey),
    sendTransactionHeld c held r a tk o (s, w) = (Returned txId, (s', w')) ->
    secureStore w !! "walletAddress" = Some addr ->
    new_PublicKey addr = Returned pk ->
    JSON_parse (JSON_stringify (newTransaction r a tk w :: held))
    = Returned (newTransaction r a tk w :: held) ->
    reliable w' ->
    exists s'',
      restoreSession (initialState, w') = (Returned tt, (s'', afterReads w'))
      /\ isConnected s'' = true
      /\ walletAddress s'' = Some addr
      /\ transactions s'' = newTransaction r a tk w :: held
      /\ (transactions s'' = transactions s' <-> held = transactions s).
Proof.
  intros c held s s' w w' r a tk o txId addr pk Hsend Haddr Hpk Hround Hw'.
  apply sendTransactionHeld_store in Hsend as (Hmem & t & Hstore).
  pose proof (valid_not_empty _ _ Hpk) as Hta.
  pose proof (parsed_not_empty _ _ Hround) as Hts.
  assert (Ha' : secureStore w' !! "walletAddress" = Some addr).
  { rewrite Hstore. now rewrite !lookup_insert_ne by discriminate. }
  assert (Ht' : secureStore w' !! "transactions"
                = Some (JSON_stringify (newTransaction r a tk w :: held))).
  { rewrite Hstore. rewrite lookup_insert_ne by discriminate.
    apply lookup_insert_eq. }
  assert (Hsame : newTransaction r a tk w :: held = transactions s'
                  <-> held = transactions s).
  { rewrite Hmem. split; [intros [= ->]|intros ->]; reflexivity. }
  unfold restoreSession, try_catch, bind.
  do 3 store_ok. simpl. rewrite Ha', Ht'. unfold when_truthy.
  rewrite Hta, Hts. unfold lift. rewrite Hpk, Hround. simpl.
  destruct (secureStore w' !! "lastActivity") as [ts|];
    [destruct (str_truthy ts)|]; simpl; eexists;
    (split; [reflexivity|]); simpl;
    (split; [reflexivity|]); (split; [reflexivity|]);
    (split; [reflexivity|exact Hsame]).
Qed.

(** Closes an invariant goal once the operation has been run. *)
Ltac ran :=
  let X := fresh in
  intros X; injection X as <- <- <-; simpl; auto.

(** X11.  Every operation of the provider keeps the invariant that a
    connected state holds an address and a key, whatever the store holds
    and whichever calls it rejects, and whether the operation returns or
    throws. *)
Theorem connectedHasAddress_kept :
  forall (s : State) (w : World),
    connectedHasAddress s ->
    (forall r s' w', restoreSession (s, w) = (r, (s', w')) ->
                     connectedHasAddress s')
    /\ (forall r s' w', clearSession (s, w) = (r, (s', w')) ->
                        connectedHasAddress s')
    /\ (forall o r s' w', connectWallet o (s, w) = (r, (s', w')) ->
                          connectedHasAddress s')
    /\ (forall r s' w', disconnectWallet (s, w) = (r, (s', w')) ->
                        connectedHasAddress s')
    /\ (forall m o r s' w', signMessage m o (s, w) = (r, (s', w')) ->
                            connectedHasAddress s')
    /\ (forall rc a tk o r s' w',
          sendTransaction rc a tk o (s, w) = (r, (s', w')) ->
          connectedHasAddress s').
Proof.
  intros s w Hinv.
  assert (Hclear : forall r s' w', clearSession (s, w) = (r, (s', w')) ->
                                   connectedHasAddress s').
  { intros r s' w'. unfold clearSession, try_catch, bind.
    do 3 (store_step; [|ran]).
    simpl. intros [= <- <- <-]. unfold connectedHasAddress. simpl.
    discriminate. }
  split; [|split; [exact Hclear|split; [|split; [exact Hclear|split]]]].
  - intros r s' w'. unfold restoreSession, try_catch, bind.
    do 3 (store_step; [|ran]).
    unfold when_truthy, lift. simpl.
    destruct (secureStore w !! "walletAddress") as [a|];
      [destruct (str_truthy a); [destruct (new_PublicKey a)|]|];
      simpl;
      try (intros [= <- <- <-]; unfold connectedHasAddress in *; simpl;
           intros Hc; split; [now eexists|]; now apply Hinv);
      (destruct (secureStore w !! "lastActivity") as [t|];
       [destruct (str_truthy t)|]);
      simpl;
      (destruct (secureStore w !! "transactions") as [j|];
       [destruct (str_truthy j); [destruct (JSON_parse j)|]|]);
      simpl; intros [= <- <- <-]; unfold connectedHasAddress in *; simpl;
      auto; intros; split; now eexists.
  - intros o r s' w'.
    unfold connectWallet, try_catch_finally, try_finally, try_catch, bind,
      lift. simpl.
    destruct (new_PublicKey "11111111111111111111111111111111") as [pk|e];
      simpl.
    2:{ intros [= <- <- <-]. unfold connectedHasAddress. simpl. discriminate. }
    store_step; simpl.
    2:{ intros [= <- <- <-]. unfold connectedHasAddress. simpl. discriminate. }
    store_step; simpl;
      intros [= <- <- <-]; unfold connectedHasAddress; simpl;
      try discriminate; intros; split; now eexists.
  - intros m o r s' w'. unfold signMessage, bind, getState. simpl.
    destruct (isConnected s) eqn:Hc; simpl; [|ran].
    intros [= <- <- <-]. unfold connectedHasAddress in *. simpl. auto.
  - intros rc a tk o r s' w'. unfold sendTransaction, bind, getState. simpl.
    destruct (isConnected s) eqn:Hc; simpl; [|ran].
    unfold try_catch_finally, try_finally, try_catch, bind. simpl.
    store_step; simpl;
      [store_step; simpl|];
      intros [= <- <- <-]; unfold connectedHasAddress in *; simpl; auto.
Qed.

(** ** Further properties of the SDK-backed provider *)

(** X16.  When the SDK's signing step throws, the SDK-backed
    [sendTransaction] throws the same value and records its message; no
    record is appended, nothing is written to the store, and the SDK call
    is the only external call made. *)
Theorem sdk_sendTransaction_sdk_failure :
  forall (s : State) (w : World) (pk rpk : PublicKey) (r : string)
         (a : number) (tk : string) (o : option string) (e : thrown)
         (rest : list (option thrown)),
    isConnected s = true ->
    publicKey s = Some pk ->
    new_PublicKey r = Returned rpk ->
    sdkFaults w = Some e :: rest ->
    exists s' w',
      SdkProvider.sendTransactionHandler r a tk o (s, w) = (Thrown e, (s', w'))
      /\ transactions s' = transactions s
      /\ error s' = Some (messageOr e "Failed to send transaction")
      /\ secureStore w' = secureStore w
      /\ externalCalls w' = SdkSignAndExecute rpk a :: externalCalls w.
Proof.
  intros s w pk rpk r a tk o e rest Hc Hpk Hr He.
  unfold SdkProvider.sendTransactionHandler, bind, getState. simpl.
  rewrite Hc, Hpk. simpl. unfold try_catch, bind, lift. rewrite Hr.
  unfold SdkProvider.sdkCall. simpl. rewrite He. simpl.
  do 2 eexists. split; [reflexivity|]. now repeat split.
Qed.

(** X17.  One run of the body of the effect that mirrors the wallet of
    the SDK store.  It never throws and makes no external call.  When the
    address of the SDK store ([smartWallet || null]) is the [walletAddress]
    of the state, nothing changes.  Otherwise the three session fields end
    in agreement, whatever they were: connected with that address and its
    key when the address is a valid one, disconnected with no address and no
    key when it is not or when the SDK store holds none.  [transactions],
    [lastActivity], [error] and [isLoading] are never touched.  A second
    run with the same SDK wallet changes nothing. *)
Theorem syncWallet_settles :
  forall (s : State) (w : World) (smartWallet : option string),
  exists s',
    SdkSession.syncWallet smartWallet (s, w) = (Returned tt, (s', w))
    /\ (SdkSession.orNull smartWallet = walletAddress s -> s' = s)
    /\ (SdkSession.orNull smartWallet <> walletAddress s ->
        sessionInvariant s'
        /\ walletAddress s'
           = match SdkSession.orNull smartWallet with
             | Some a => if isValidSolanaAddress a then Some a else None
             | None => None
             end)
    /\ transactions s' = transactions s
    /\ lastActivity s' = lastActivity s
    /\ error s' = error s
    /\ isLoading s' = isLoading s
    /\ SdkSession.syncWallet smartWallet (s', w) = (Returned tt, (s', w)).
Proof.
  intros s w smartWallet.
  unfold SdkSession.syncWallet, bind, getState, isValidSolanaAddress.
  cbn [fst snd].
  destruct (decide (SdkSession.orNull smartWallet = walletAddress s))
    as [Heq|Hne].
  - exists s. split; [reflexivity|]. split; [reflexivity|].
    split; [contradiction|]. repeat (split; [reflexivity|]).
    destruct (decide (SdkSession.orNull smartWallet = walletAddress s));
      [reflexivity|contradiction].
  - destruct (SdkSession.orNull smartWallet) as [a|].
    + unfold try_catch, bind, lift.
      destruct (new_PublicKey a) as [pk|e] eqn:Hpk; simpl;
        eexists; (split; [reflexivity|]); simpl.
      * split; [intros Heq; now rewrite Heq in Hne|].
        split; [intros _; split; [|reflexivity]|].
        { unfold sessionInvariant. simpl. split; [reflexivity|].
          exists pk. now split. }
        repeat (split; [reflexivity|]).
        destruct (decide (Some a = Some a)); [reflexivity|contradiction].
      * split; [intros Heq; now rewrite Heq in Hne|].
        split; [intros _; split; [|reflexivity]|].
        { unfold sessionInvariant. simpl. now split. }
        repeat (split; [reflexivity|]).
        destruct (decide (Some a = None)); [discriminate|].
        reflexivity.
    + simpl. eexists. split; [reflexivity|]. simpl.
      split; [intros Heq; now rewrite Heq in Hne|].
      split; [intros _; split; [|reflexivity]|].
      { unfold sessionInvariant. simpl. now split. }
      repeat (split; [reflexivity|]).
      destruct (decide (@None string = None)); [reflexivity|contradiction].
Qed.

End ProviderMore.

(** * Further properties of [utils/lazorkit.ts] *)

Lemma num_lt_of_Z (x y : Z) : num_lt (num_of_Z x) (num_of_Z y) = Z.ltb x y.
Proof.
  unfold num_lt, num_of_Z, Qlt_bool, Qle_bool. simpl.
  rewrite !Z.mul_1_r. rewrite Z.ltb_antisym. reflexivity.
Qed.

(** X18.  A key made by [createSessionKey] expires [expirationSeconds]
    after the second reading of the clock taken while making it: it is
    rejected at every later time, whatever its permissions, and a key
    without restrictions is accepted at every time up to then, for every
    recipient, amount and token.  Making the key changes neither the state
    nor the store.  (Integer seconds, within the range where doubles are
    exact.) *)
Theorem createSessionKey_expiry :
  forall `{Platform} (perms : SessionPermissions) (secs : Z) (s s' : State)
         (w w' : World) (key : SessionKey),
    createSessionKey perms (Some secs) (s, w) = (Returned key, (s', w')) ->
    safeInteger (secs * 1000) ->
    safeInteger (hd 0%Z (tl (clock w)) + secs * 1000) ->
    s' = s
    /\ secureStore w' = secureStore w
    /\ permissions key = perms
    /\ (forall r a t now,
          (hd 0 (tl (clock w)) + secs * 1000 < now)%Z ->
          validateSessionKeyPermissions key r a t now = false)
    /\ (perms = unrestricted ->
        forall r a t now,
          (now <= hd 0 (tl (clock w)) + secs * 1000)%Z ->
          validateSessionKeyPermissions key r a t now = true).
Proof.
  intros P perms secs s s' w w' key Hmake _ _. revert Hmake.
  unfold createSessionKey, bind, lift.
  destruct (new_PublicKey SOL_MINT) as [pk|e]; simpl; [|discriminate].
  intros [= <- <- <-]. simpl.
  split; [now destruct s|]. split; [reflexivity|]. split; [reflexivity|].
  split.
  - intros r a t now Hlate. unfold validateSessionKeyPermissions.
    cbn [expiresAt]. rewrite num_lt_of_Z.
    apply Z.ltb_lt in Hlate. now rewrite Hlate.
  - intros -> r a t now Hearly. unfold validateSessionKeyPermissions.
    cbn [expiresAt]. rewrite num_lt_of_Z.
    apply Z.ltb_ge in Hearly. now rewrite Hearly.
Qed.

Lemma Qlt_bool_iff (x y : Q) : Qlt_bool x y = true <-> (x < y)%Q.
Proof.
  unfold Qlt_bool. rewrite negb_true_iff. split.
  - intros Hn. apply Qnot_le_lt. intros Hle.
    apply Qle_bool_iff in Hle. congruence.
  - intros Hlt. destruct (Qle_bool y x) eqn:E; [|reflexivity].
    apply Qle_bool_iff in E. exfalso. now apply (Qlt_not_le x y).
Qed.

(** [a < b] is kept when [a] is lowered and [b] raised. *)
Lemma num_lt_widen (a a' b b' : number) :
  num_lt a b = false -> num_le a a' = true -> num_le b' b = true ->
  num_lt a' b' = false.
Proof.
  destruct a as [| |x|], a' as [| |x'|], b as [| |y|], b' as [| |y'|];
    simpl; try discriminate; try reflexivity.
  intros Hnlt Hxx Hyy.
  apply Qle_bool_iff in Hxx. apply Qle_bool_iff in Hyy.
  destruct (Qlt_bool x' y') eqn:E; [|reflexivity].
  apply Qlt_bool_iff in E.
  assert (Hlt : (x < y)%Q).
  { eapply Qle_lt_trans; [exact Hxx|]. eapply Qlt_le_trans; eassumption. }
  apply Qlt_bool_iff in Hlt. congruence.
Qed.

Lemma num_le_of_Z (x y : Z) : (x <= y)%Z -> num_le (num_of_Z x) (num_of_Z y) = true.
Proof.
  intros Hle. unfold num_le, num_of_Z. apply Qle_bool_iff.
  now rewrite <- Zle_Qle.
Qed.

Lemma num_le_refl (a : number) : is_NaN a = false -> num_le a a = true.
Proof.
  destruct a; simpl; try discriminate; try reflexivity.
  intros _. apply Qle_bool_iff. apply Qle_refl.
Qed.

(** X19.  Permission is monotone: a transfer that a session key allows at
    some time for some amount is also allowed at every earlier time and for
    every lower amount, the recipient and the token being the same. *)
Theorem validateSessionKeyPermissions_monotone :
  forall (sk : SessionKey) (r : PublicKey) (a a' : number) (t : PublicKey)
         (now now' : Z),
    validateSessionKeyPermissions sk r a t now = true ->
    (now' <= now)%Z ->
    num_le a' a = true ->
    validateSessionKeyPermissions sk r a' t now' = true.
Proof.
  intros sk r a a' t now now' Hok Hnow Ha.
  apply validateSessionKeyPermissions_exact in Hok as (Hexp & Hlim & Hr & Ht).
  apply validateSessionKeyPermissions_exact.
  split; [|split; [|now split]].
  - destruct (is_NaN (expiresAt sk)) eqn:Hnan.
    + destruct (expiresAt sk); try discriminate. reflexivity.
    + eapply num_lt_widen; [exact Hexp|now apply num_le_refl|].
      now apply num_le_of_Z.
  - destruct (maxAmount (permissions sk)) as [m|]; [|exact I].
    destruct Hlim as [Hfalsy|Hgt]; [now left|right].
    unfold num_gt in *.
    destruct (is_NaN m) eqn:Hnan.
    + destruct m; try discriminate. reflexivity.
    + eapply num_lt_widen; [exact Hgt|now apply num_le_refl|exact Ha].
Qed.

(** X20.  A whitelist that is set but empty rejects everything: with
    [allowedRecipients] or [allowedTokens] the empty array, no transfer is
    allowed at any time, whereas an unset whitelist restricts nothing. *)
Theorem empty_whitelist_rejects :
  forall (sk : SessionKey) (r : PublicKey) (a : number) (t : PublicKey)
         (now : Z),
    allowedRecipients (permissions sk) = Some []
    \/ allowedTokens (permissions sk) = Some [] ->
    validateSessionKeyPermissions sk r a t now = false.
Proof.
  intros sk r a t now Hempty.
  destruct (validateSessionKeyPermissions sk r a t now) eqn:E; [|reflexivity].
  apply validateSessionKeyPermissions_exact in E as (_ & _ & Hr & Ht).
  unfold recipientAllowed, tokenAllowed in *.
  destruct Hempty as [He|He]; rewrite He in *; contradiction.
Qed.

Section PaymasterFacts.
Context `{Platform}.
Variable toBase58 : PublicKey -> string.
Variable fetch : Request -> outcome (bool * PaymasterReply).
Variable describe : thrown -> string.

(** X21.  Provided the SOL mint constant is a valid address,
    [validateWithPaymaster] never throws, and it vouches for nothing the
    paymaster did not say: the result is [valid] (or has sponsorship
    available) only if the transaction was serialized, the request to
    [getPaymasterUrl(network) + "/validate"] was answered, and the body of
    the answer said so. *)
Theorem validateWithPaymaster_sound :
  forall (serialized : outcome string) (walletAddress sol : PublicKey)
         (network : Network),
    new_PublicKey SOL_MINT = Returned sol ->
    exists v,
      validateWithPaymaster toBase58 fetch serialized walletAddress network
      = Returned v
      /\ (valid v = true \/ sponsorshipAvailable v = true ->
          exists txBase64 ok data,
            serialized = Returned txBase64
            /\ fetch (validateRequest toBase58 txBase64 walletAddress network)
               = Returned (ok, data)
            /\ (valid v = true -> reply_valid data = Some true)
            /\ (sponsorshipAvailable v = true ->
                reply_sponsorshipAvailable data = Some true)).
Proof.
  intros serialized walletAddress sol network Hsol.
  unfold validateWithPaymaster, validateRequest.
  destruct serialized as [txBase64|e]; rewrite ?Hsol.
  2:{ eexists. split; [reflexivity|]. simpl. intros [|]; discriminate. }
  destruct (fetch _) as [[ok data]|e] eqn:Hfetch; rewrite ?Hsol.
  2:{ eexists. split; [reflexivity|]. simpl. intros [|]; discriminate. }
  destruct (new_PublicKey (orString (reply_feeToken data) SOL_MINT))
    as [token|e]; rewrite ?Hsol.
  2:{ eexists. split; [reflexivity|]. simpl. intros [|]; discriminate. }
  eexists. split; [reflexivity|]. simpl. intros _.
  exists txBase64, ok, data. split; [reflexivity|]. split; [exact Hfetch|].
  split.
  - destruct (reply_valid data) as [[]|]; simpl; congruence.
  - destruct (reply_sponsorshipAvailable data) as [[]|]; simpl; congruence.
Qed.

(** X22.  Every failure on the way ends in the same answer: when the
    transaction cannot be serialized, the request fails, or the fee token
    of the reply is not a valid address (even if the reply said
    [valid: true]), [validateWithPaymaster] returns [valid: false],
    [sponsorshipAvailable: false], fee 0, the SOL mint as fee token and the
    error "Validation failed". *)
Theorem validateWithPaymaster_failure :
  forall (serialized : outcome string) (walletAddress sol : PublicKey)
         (network : Network),
    new_PublicKey SOL_MINT = Returned sol ->
    (exists e, serialized = Thrown e)
    \/ (exists txBase64 e,
          serialized = Returned txBase64
          /\ fetch (validateRequest toBase58 txBase64 walletAddress network)
             = Thrown e)
    \/ (exists txBase64 ok data e,
          serialized = Returned txBase64
          /\ fetch (validateRequest toBase58 txBase64 walletAddress network)
             = Returned (ok, data)
          /\ new_PublicKey (orString (reply_feeToken data) SOL_MINT)
             = Thrown e) ->
    validateWithPaymaster toBase58 fetch serialized walletAddress network
    = Returned (validationFailed sol).
Proof.
  intros serialized walletAddress sol network Hsol Hfail.
  unfold validateWithPaymaster, validateRequest in *.
  destruct Hfail as [[e ->]|[(tx & e & -> & Hf)|(tx & ok & data & e & -> & Hf & Hbad)]].
  - now rewrite Hsol.
  - rewrite Hf. now rewrite Hsol.
  - rewrite Hf, Hbad. now rewrite Hsol.
Qed.

(** X23.  [submitToPaymaster] returns only on an OK response, and then
    the [signature] of the body, or the empty string when the body has
    none; in every other case (serialization, network, a response that is
    not OK) it throws an [Error] whose message starts with "Paymaster
    submission failed: ". *)
Theorem submitToPaymaster_outcome :
  forall (serialized : outcome string) (network : Network),
    match submitToPaymaster fetch describe serialized network with
    | Returned signature =>
        exists txBase64 data,
          serialized = Returned txBase64
          /\ fetch (submitRequest txBase64 network) = Returned (true, data)
          /\ signature = orString (reply_signature data) ""
    | Thrown e =>
        exists cause,
          e = Error ("Paymaster submission failed: " +:+ describe cause)
          /\ forall txBase64 data,
               serialized = Returned txBase64 ->
               fetch (submitRequest txBase64 network) <> Returned (true, data)
    end.
Proof.
  intros serialized network. unfold submitToPaymaster, submitRequest.
  destruct serialized as [txBase64|e].
  2:{ eexists. split; [reflexivity|]. discriminate. }
  destruct (fetch _) as [[[] data]|e] eqn:Hfetch; simpl.
  - now exists txBase64, data.
  - eexists. split; [reflexivity|]. intros tx d [= <-]. congruence.
  - eexists. split; [reflexivity|]. intros tx d [= <-]. congruence.
Qed.

End PaymasterFacts.

Section HistoryFacts.
Context {Parsed : Type}.
Variable getSignaturesForAddress :
  PublicKey -> number -> option string -> outcome (list string).
Variable getParsedTransaction : string -> outcome (option Parsed).

Lemma Promise_all_thrown {A} (results : list (outcome A)) (e : thrown) :
  In (Thrown e) results -> exists e', Promise_all results = Thrown e'.
Proof.
  induction results as [|[a|e0] rest IH]; simpl; [easy| |].
  - intros [Hc|Hin]; [discriminate|].
    destruct (IH Hin) as [e' ->]. now exists e'.
  - intros _. now exists e0.
Qed.

Lemma Promise_all_returned {A} (results : list (outcome A)) :
  (forall e, ~ In (Thrown e) results) ->
  exists l, Promise_all results = Returned l /\ map Returned l = results.
Proof.
  induction results as [|[a|e0] rest IH]; simpl; intros Hno.
  - now exists [].
  - destruct IH as (l & -> & Hl); [intros e Hin; apply (Hno e); now right|].
    exists (a :: l). simpl. now rewrite Hl.
  - exfalso. apply (Hno e0). now left.
Qed.

Lemma omap_found (signatures : list string) (l : list (option Parsed)) :
  map Returned l = map getParsedTransaction signatures ->
  omap (fun x => x) l
  = omap (fun sig => found (getParsedTransaction sig)) signatures.
Proof.
  revert l. induction signatures as [|sig sigs IH]; intros [|x l]; simpl;
    try discriminate; [reflexivity|].
  intros [= Hx Hl]. specialize (IH l Hl).
  change (omap (fun x0 => x0) (x :: l))
    with (match x with
          | Some y => y :: omap (fun x0 => x0) l
          | None => omap (fun x0 => x0) l
          end).
  change (omap (fun sig0 => found (getParsedTransaction sig0)) (sig :: sigs))
    with (match found (getParsedTransaction sig) with
          | Some y =>
              y :: omap (fun sig0 => found (getParsedTransaction sig0)) sigs
          | None => omap (fun sig0 => found (getParsedTransaction sig0)) sigs
          end).
  rewrite <- Hx. simpl. destruct x; [f_equal|]; exact IH.
Qed.

(** X24.  One failed lookup loses the whole history:
    [getWalletTransactionHistory] returns the empty list when the list of
    signatures cannot be fetched or when [getParsedTransaction] throws for
    any single signature, however many lookups succeeded. *)
Theorem history_all_or_nothing :
  forall (walletAddress : PublicKey) (limit : option number)
         (before : option string),
    (exists e, getSignaturesForAddress walletAddress (limitSent limit) before
               = Thrown e)
    \/ (exists signatures sig e,
          getSignaturesForAddress walletAddress (limitSent limit) before
          = Returned signatures
          /\ In sig signatures
          /\ getParsedTransaction sig = Thrown e) ->
    getWalletTransactionHistory getSignaturesForAddress getParsedTransaction
      walletAddress limit before = [].
Proof.
  intros walletAddress limit before Hfail.
  unfold getWalletTransactionHistory. fold (limitSent limit).
  destruct Hfail as [[e Hs]|(sigs & sig & e & Hs & Hin & Hthrow)].
  - now rewrite Hs.
  - rewrite Hs.
    destruct (Promise_all_thrown (map getParsedTransaction sigs) e) as [e' ->];
      [|reflexivity].
    rewrite <- Hthrow. now apply in_map.
Qed.

(** X25.  When every lookup returns, the history is what the lookups
    found, in the order of the signatures, the [null] results left out
    (the signatures being asked for with the limit given, or 10 when it is
    unset, 0 or [NaN]). *)
Theorem history_found :
  forall (walletAddress : PublicKey) (limit : option number)
         (before : option string) (signatures : list string),
    getSignaturesForAddress walletAddress (limitSent limit) before
    = Returned signatures ->
    (forall sig e, In sig signatures -> getParsedTransaction sig <> Thrown e) ->
    getWalletTransactionHistory getSignaturesForAddress getParsedTransaction
      walletAddress limit before
    = omap (fun sig => found (getParsedTransaction sig)) signatures.
Proof.
  intros walletAddress limit before signatures Hs Hall.
  unfold getWalletTransactionHistory. fold (limitSent limit). rewrite Hs.
  destruct (Promise_all_returned (map getParsedTransaction signatures))
    as (l & -> & Hl).
  - intros e Hin. apply in_map_iff in Hin as (sig & Hsig & Hin).
    now apply (Hall sig e).
  - unfold filterBoolean. now apply omap_found.
Qed.

End HistoryFacts.

(** * Properties of [utils/helpers.ts] *)

Lemma length_append (s1 s2 : string) :
  String.length (s1 +:+ s2) = String.length s1 + String.length s2.
Proof. induction s1 as [|c s1 IH]; simpl; [reflexivity|now rewrite IH]. Qed.

Lemma length_substring (s : string) (n m : nat) :
  String.length (String.substring n m s) = Nat.min m (String.length s - n).
Proof.
  revert n m. induction s as [|c s IH]; intros [|n] [|m]; simpl;
    try reflexivity; rewrite IH; simpl; lia.
Qed.

Lemma substring_prefix (s : string) (m : nat) :
  exists rest, s = String.substring 0 m s +:+ rest.
Proof.
  revert m. induction s as [|c s IH]; intros [|m]; simpl.
  - now exists "".
  - now exists "".
  - now exists (String c s).
  - destruct (IH m) as [rest Hrest]. exists rest.
    exact (f_equal (String c) Hrest).
Qed.

Lemma substring_suffix (s : string) (n : nat) :
  exists front, s = front +:+ String.substring n (String.length s - n) s.
Proof.
  revert n. induction s as [|c s IH]; intros [|n]; simpl.
  - now exists "".
  - now exists "".
  - exists "".
    change (String c s
            = String c (String.substring 0 (String.length s) s)).
    f_equal.
    destruct (IH 0) as [front Hfront]. rewrite Nat.sub_0_r in Hfront.
    assert (Hlen : String.length front = 0).
    { apply (f_equal String.length) in Hfront.
      rewrite length_append, length_substring in Hfront. lia. }
    destruct front; [exact Hfront|discriminate].
  - destruct (IH n) as [front Hfront]. exists (String c front).
    exact (f_equal (String c) Hfront).
Qed.

Lemma substring_all (s : string) : String.substring 0 (String.length s) s = s.
Proof. induction s as [|c s IH]; simpl; [reflexivity|now rewrite IH]. Qed.

(** X26.  [truncateAddress] keeps, of a non-empty address of [n]
    characters and for a positive [chars], the first and the last
    [min(chars, n)] characters around three dots, so that the result has
    [2 min(chars, n) + 3] characters: it is shorter than the address only
    for addresses of more than [2 chars + 3] characters.  With [chars = 0]
    nothing is cut: the result is the dots followed by the whole address.
    [null] and the empty string give the empty string. *)
Theorem truncateAddress_shape :
  (forall (a : string) (c : Z),
      a <> "" -> (0 < c)%Z ->
      exists p q,
        truncateAddress (Some a) (Some c) = p +:+ "..." +:+ q
        /\ String.length p = Nat.min (Z.to_nat c) (String.length a)
        /\ String.length q = Nat.min (Z.to_nat c) (String.length a)
        /\ (exists rest, a = p +:+ rest)
        /\ (exists front, a = front +:+ q)
        /\ String.length (truncateAddress (Some a) (Some c))
           = 2 * Nat.min (Z.to_nat c) (String.length a) + 3)
  /\ (forall a : string,
        a <> "" -> truncateAddress (Some a) (Some 0%Z) = "..." +:+ a)
  /\ (forall c, truncateAddress None c = "" /\ truncateAddress (Some "") c = "").
Proof.
  split; [|split].
  - intros a c Ha Hc.
    assert (Htruthy : str_truthy a = true) by (destruct a; [easy|reflexivity]).
    unfold truncateAddress. rewrite Htruthy.
    set (n := String.length a).
    assert (Hp : slice a 0 (Some c)
                 = String.substring 0 (Nat.min (Z.to_nat c) n) a).
    { unfold slice, relativeIndex. fold n.
      replace (Z.ltb 0 0) with false by reflexivity.
      destruct (Z.ltb c 0) eqn:E; [apply Z.ltb_lt in E; lia|].
      f_equal; lia. }
    assert (Hq : slice a (- c) None
                 = String.substring (n - Z.to_nat c)
                     (n - (n - Z.to_nat c)) a).
    { unfold slice, relativeIndex. fold n.
      destruct (Z.ltb (- c) 0) eqn:E; [|apply Z.ltb_ge in E; lia].
      f_equal; lia. }
    rewrite Hp, Hq.
    exists (String.substring 0 (Nat.min (Z.to_nat c) n) a),
           (String.substring (n - Z.to_nat c) (n - (n - Z.to_nat c)) a).
    split; [reflexivity|].
    split; [rewrite length_substring; fold n; lia|].
    split; [rewrite length_substring; fold n; lia|].
    split; [apply substring_prefix|].
    split; [apply (substring_suffix a (n - Z.to_nat c))|].
    rewrite !length_append, !length_substring. fold n. simpl. lia.
  - intros a Ha.
    assert (Htruthy : str_truthy a = true) by (destruct a; [easy|reflexivity]).
    unfold truncateAddress. rewrite Htruthy.
    assert (Hp : slice a 0 (Some 0%Z) = "").
    { unfold slice, relativeIndex.
      replace (Z.ltb 0 0) with false by reflexivity.
      replace (Z.to_nat (Z.max (Z.min 0 (Z.of_nat (String.length a))
                                - Z.min 0 (Z.of_nat (String.length a))) 0))
        with 0 by lia.
      now destruct a. }
    assert (Hq : slice a (- 0) None = a).
    { unfold slice, relativeIndex.
      replace (Z.ltb (- 0) 0) with false by reflexivity.
      replace (Z.to_nat (Z.min (- 0) (Z.of_nat (String.length a))))
        with 0 by lia.
      replace (Z.to_nat
                 (Z.max (Z.of_nat (String.length a)
                         - Z.min (- 0) (Z.of_nat (String.length a))) 0))
        with (String.length a) by lia.
      apply substring_all. }
    rewrite Hp, Hq. reflexivity.
  - intros c. split; reflexivity.
Qed.

Section RetryFacts.
Context {T : Type}.

(** The delays slept when attempts [a], [a + 1], ... fail. *)
Lemma retryFrom_failures (errs : list thrown) :
  forall (fuel : nat) (a maxAttempts d : Z) (last : option thrown)
         (more : list (outcome T)) (n : nat) (slept : list Z),
    (a + Z.of_nat (length errs) <= maxAttempts)%Z ->
    retryFrom nap attempt (length errs + fuel) a maxAttempts d last
      (mkTrial (map Thrown errs ++ more) n slept)
    = retryFrom nap attempt fuel (a + Z.of_nat (length errs)) maxAttempts d
        (match rev errs with e :: _ => Some e | [] => last end)
        (mkTrial more (n + length errs)
           (slept ++ map (fun i => (d * 2 ^ (a - 1 + Z.of_nat i))%Z)
                       (seq 0 (length errs)))).
Proof.
  induction errs as [|e errs IH]; intros fuel a maxAttempts d last more n slept Hle.
  - simpl. rewrite Z.add_0_r, Nat.add_0_r, app_nil_r. reflexivity.
  - cbn [length Nat.add map app retryFrom].
    cbn [length] in Hle. rewrite Nat2Z.inj_succ in Hle.
    replace (Z.leb a maxAttempts) with true by (symmetry; apply Z.leb_le; lia).
    replace (attempt (mkTrial (Thrown e :: map Thrown errs ++ more) n slept))
      with (@Thrown T e, mkTrial (map Thrown errs ++ more) (S n) slept)
      by reflexivity.
    replace (Z.ltb a maxAttempts) with true by (symmetry; apply Z.ltb_lt; lia).
    replace (nap (d * 2 ^ (a - 1))
               (mkTrial (map Thrown errs ++ more) (S n) slept))
      with (mkTrial (map Thrown errs ++ more) (S n)
              (slept ++ [(d * 2 ^ (a - 1))%Z]))
      by reflexivity.
    rewrite IH by lia.
    replace (a + 1 + Z.of_nat (length errs))%Z
      with (a + Z.of_nat (S (length errs)))%Z by lia.
    replace (S n + length errs) with (n + S (length errs)) by lia.
    replace (match rev errs with e0 :: _ => Some e0 | [] => Some e end)
      with (match rev (e :: errs) with e0 :: _ => Some e0 | [] => last end)
      by (simpl; destruct (rev errs); reflexivity).
    do 2 f_equal.
    rewrite <- app_assoc. f_equal. cbn [seq map app]. f_equal.
    + f_equal. f_equal. lia.
    + rewrite <- seq_shift, map_map. apply map_ext. intros i. f_equal.
      f_equal. lia.
Qed.

Lemma backoff_eq (d : Z) (k : nat) :
  map (fun i => (d * 2 ^ (1 - 1 + Z.of_nat i))%Z) (seq 0 k) = backoff d k.
Proof. unfold backoff. apply map_ext. intros i. reflexivity. Qed.

(** X27.  When the first [k] calls fail and call [k + 1] succeeds, with
    [k < maxAttempts], [retry] returns what that call returned, having
    called the function exactly [k + 1] times and slept [k] times, for
    [delayMs], [2 delayMs], ..., [2^(k-1) delayMs] milliseconds in that
    order. *)
Theorem retry_first_success :
  forall (errs : list thrown) (v : T) (rest : list (outcome T))
         (maxAttempts d : Z) (n : nat) (slept : list Z),
    (Z.of_nat (length errs) < maxAttempts)%Z ->
    retry nap attempt maxAttempts d
      (mkTrial (map Thrown errs ++ Returned v :: rest) n slept)
    = (Returned v,
       mkTrial rest (n + length errs + 1)
         (slept ++ backoff d (length errs))).
Proof.
  intros errs v rest maxAttempts d n slept Hlt. unfold retry.
  replace (Z.to_nat maxAttempts)
    with (length errs + S (Z.to_nat maxAttempts - length errs - 1)) by lia.
  rewrite retryFrom_failures by lia. rewrite backoff_eq.
  simpl retryFrom.
  replace (Z.leb (1 + Z.of_nat (length errs)) maxAttempts) with true
    by (symmetry; apply Z.leb_le; lia).
  unfold attempt. simpl. do 2 f_equal. lia.
Qed.

(** X28.  When all of the [maxAttempts >= 1] calls fail, [retry] throws
    what the last call threw, having called the function exactly
    [maxAttempts] times and slept [maxAttempts - 1] times: there is no
    sleep after the last failure. *)
Theorem retry_exhausted :
  forall (errs : list thrown) (e : thrown) (rest : list (outcome T))
         (d : Z) (n : nat) (slept : list Z),
    retry nap attempt (Z.of_nat (length errs + 1)) d
      (mkTrial (map Thrown (errs ++ [e]) ++ rest) n slept)
    = (Thrown e,
       mkTrial rest (n + length errs + 1)
         (slept ++ backoff d (length errs))).
Proof.
  intros errs e rest d n slept. unfold retry.
  rewrite Nat2Z.id. rewrite map_app, <- app_assoc.
  rewrite retryFrom_failures by lia. rewrite backoff_eq.
  simpl retryFrom.
  replace (Z.leb (1 + Z.of_nat (length errs)) (Z.of_nat (length errs + 1)))
    with true by (symmetry; apply Z.leb_le; lia).
  unfold attempt. simpl.
  replace (Z.ltb (1 + Z.of_nat (length errs)) (Z.of_nat (length errs + 1)))
    with false by (symmetry; apply Z.ltb_ge; lia).
  do 2 f_equal. lia.
Qed.

End RetryFacts.

(** X29.  With [maxAttempts] zero or negative, [retry] never calls the
    function: it throws at once, and what it throws is [undefined], not an
    [Error]; the environment is untouched. *)
Theorem retry_no_attempt :
  forall {Env T : Type} (sleep : Z -> Env -> Env)
         (fn : Env -> outcome T * Env) (maxAttempts d : Z) (c : Env),
    (maxAttempts <= 0)%Z ->
    retry sleep fn maxAttempts d c = (Thrown NonError, c).
Proof.
  intros Env T sleep fn maxAttempts d c Hle. unfold retry.
  replace (Z.to_nat maxAttempts) with 0 by lia. reflexivity.
Qed.

(** * The configuration and the provider *)

(** X30.  The provider's [rpcUrl] is the one of [getNetworkConfig] on both
    networks, but its [paymasterUrl] is the one of [getPaymasterUrl] on
    devnet only: on mainnet the context names the devnet paymaster. *)
Theorem provider_endpoints :
  forall network : Network,
    provider_rpcUrl network = rpcUrl (getNetworkConfig network)
    /\ (provider_paymasterUrl network = getPaymasterUrl network
        <-> network = devnet).
Proof.
  intros [|]; (split; [reflexivity|]); split; try reflexivity; discriminate.
Qed.

(** * The further properties at concrete inputs *)

Lemma restoreSession_nothing_saved_witness :
  reliable quietWorld
  /\ keysAbsent (secureStore quietWorld)
  /\ restoreSession (H := Reference.platform) (initialState, quietWorld)
     = (Returned tt, (initialState, afterReads quietWorld)).
Proof.
  split; [constructor|]. split; [vm_compute; repeat split|].
  apply (restoreSession_nothing_saved (H := Reference.platform)
           initialState quietWorld).
  - constructor.
  - vm_compute; repeat split.
Defined.

Lemma restoreSession_connects_iff_valid_witness :
  reliable goodWorld
  /\ isConnected initialState = false
  /\ exists s' w',
       restoreSession (H := Reference.platform) (initialState, goodWorld)
       = (Returned tt, (s', w'))
       /\ (isConnected s' = true
           <-> exists a, secureStore goodWorld !! "walletAddress" = Some a
                         /\ isValidSolanaAddress (H := Reference.platform) a
                            = true).
Proof.
  split; [constructor|]. split; [reflexivity|].
  apply (restoreSession_connects_iff_valid (H := Reference.platform)
           initialState goodWorld).
  - constructor.
  - reflexivity.
Defined.

Lemma clearSession_other_keys_witness :
  secureStore liveWorld !! "theme" = Some "dark"
  /\ secureStore (snd (snd (clearSession (liveState, liveWorld)))) !! "theme"
     = secureStore liveWorld !! "theme".
Proof.
  split; [vm_compute; reflexivity|].
  apply (clearSession_other_keys liveState liveWorld
           (fst (clearSession (liveState, liveWorld)))
           (snd (clearSession (liveState, liveWorld))) "theme").
  - apply surjective_pairing.
  - discriminate.
  - discriminate.
  - discriminate.
Defined.


Lemma sendTransaction_write_rejected_witness :
  isConnected connectedState = true
  /\ nextFault faultyWorld = Some (Error "Keychain is locked")
  /\ exists s' w',
       sendTransaction (H := Reference.platform) SOL_MINT (Fin 10) "USDC" None
         (connectedState, faultyWorld)
       = (Thrown (Error "Keychain is locked"), (s', w'))
       /\ transactions s'
          = newTransaction SOL_MINT (Fin 10) "USDC" faultyWorld
            :: transactions connectedState
       /\ secureStore w' = secureStore faultyWorld
       /\ error s'
          = Some (messageOr (Error "Keychain is locked")
                    "Failed to send transaction")
       /\ isLoading s' = false.
Proof.
  split; [reflexivity|]. split; [reflexivity|].
  apply (sendTransaction_write_rejected (H := Reference.platform)
           connectedState faultyWorld SOL_MINT (Fin 10) "USDC" None
           (Error "Keychain is locked")).
  - reflexivity.
  - reflexivity.
Defined.

Lemma sendTransaction_persists_held_witness :
  sendTransactionHeld (H := Reference.platform) true (transactions liveState)
    "11111111111111111111111111111111" (Fin 3) "SOL" None
    (fst afterSend, laterWorld)
  = (Returned "tx_8fj2n5v1c0aa", (fst afterKeptSend, snd afterKeptSend))
  /\ length (transactions (fst afterKeptSend)) = 4
  /\ secureStore (snd afterKeptSend) !! "transactions"
     = Some (Reference.stringify
               (newTransaction "11111111111111111111111111111111" (Fin 3)
                  "SOL" laterWorld
                :: transactions liveState))
  /\ secureStore (snd afterKeptSend) !! "transactions"
     <> Some (Reference.stringify (transactions (fst afterKeptSend))).
Proof.
  split; [vm_compute; reflexivity|].
  split; [vm_compute; reflexivity|].
  split; [|vm_compute; discriminate].
  apply (sendTransaction_persists_held (H := Reference.platform)
           true (transactions liveState) (fst afterSend) (fst afterKeptSend)
           laterWorld (snd afterKeptSend)
           "11111111111111111111111111111111" (Fin 3) "SOL" None
           "tx_8fj2n5v1c0aa").
  vm_compute; reflexivity.
Defined.

Lemma send_then_restore_witness :
  transactions liveState <> transactions (fst afterSend)
  /\ exists s'',
       restoreSession (H := Reference.platform)
         (initialState, snd afterKeptSend)
       = (Returned tt, (s'', afterReads (snd afterKeptSend)))
       /\ isConnected s'' = true
       /\ walletAddress s'' = Some "11111111111111111111111111111111"
       /\ transactions s''
          = newTransaction "11111111111111111111111111111111" (Fin 3) "SOL"
              laterWorld
            :: transactions liveState
       /\ (transactions s'' = transactions (fst afterKeptSend)
           <-> transactions liveState = transactions (fst afterSend)).
Proof.
  split; [vm_compute; discriminate|].
  apply (send_then_restore (H := Reference.platform)
           true (transactions liveState) (fst afterSend) (fst afterKeptSend)
           laterWorld (snd afterKeptSend)
           "11111111111111111111111111111111" (Fin 3) "SOL" None
           "tx_8fj2n5v1c0aa" "11111111111111111111111111111111"
           (mkPublicKey 0)).
  - vm_compute; reflexivity.
  - vm_compute; reflexivity.
  - vm_compute; reflexivity.
  - vm_compute; reflexivity.
  - vm_compute; constructor.
Defined.

Lemma connectedHasAddress_kept_witness :
  connectedHasAddress liveState
  /\ forall rc a tk o r s' w',
       sendTransaction (H := Reference.platform) rc a tk o
         (liveState, faultyWorld) = (r, (s', w')) ->
       connectedHasAddress s'.
Proof.
  assert (Hinv : connectedHasAddress liveState).
  { intros _. split; eexists; reflexivity. }
  split; [exact Hinv|].
  apply (connectedHasAddress_kept (H := Reference.platform)
           liveState faultyWorld Hinv).
Defined.

Lemma sdk_restoreSession_invalid_clears_witness :
  reliable corruptWorld
  /\ Reference.PublicKey_of_string "not-a-public-key"
     = Thrown (Error "Non-base58 character")
  /\ SdkProvider.restoreSession (H := Reference.platform)
       (initialState, corruptWorld)
     = (Returned tt,
        (cleared initialState, afterDeletes (afterReads corruptWorld)))
  /\ keysAbsent (secureStore (afterDeletes (afterReads corruptWorld))).
Proof.
  split; [constructor|]. split; [vm_compute; reflexivity|].
  pose proof (sdk_restoreSession_invalid_clears (H := Reference.platform)
                initialState corruptWorld "not-a-public-key"
                (Error "Non-base58 character")) as Hclears.
  destruct Hclears as (Hrun & Habsent & _).
  - constructor.
  - vm_compute; reflexivity.
  - reflexivity.
  - vm_compute; reflexivity.
  - split; [exact Hrun|exact Habsent].
Defined.



Lemma sdk_disconnectWallet_clears_witness :
  reliable goodWorld
  /\ exists w',
       SdkProvider.disconnectWallet (liveState, goodWorld)
       = (Returned tt, (cleared liveState, w'))
       /\ keysAbsent (secureStore w').
Proof.
  split; [constructor|].
  apply (sdk_disconnectWallet_clears liveState goodWorld).
  constructor.
Defined.

Lemma sdk_sendTransaction_sdk_failure_witness :
  Reference.PublicKey_of_string SOL_MINT = Returned solKey
  /\ exists s' w',
       SdkProvider.sendTransactionHandler (H := Reference.platform)
         SOL_MINT (Fin 10) "USDC" None (liveState, rejectingWorld)
       = (Thrown (Error "User rejected the request"), (s', w'))
       /\ transactions s' = transactions liveState
       /\ error s'
          = Some (messageOr (Error "User rejected the request")
                    "Failed to send transaction")
       /\ secureStore w' = secureStore rejectingWorld
       /\ externalCalls w'
          = SdkSignAndExecute solKey (Fin 10) :: externalCalls rejectingWorld.
Proof.
  split; [vm_compute; reflexivity|].
  apply (sdk_sendTransaction_sdk_failure (H := Reference.platform)
           liveState rejectingWorld (mkPublicKey 0) solKey SOL_MINT (Fin 10)
           "USDC" None (Error "User rejected the request") []).
  - reflexivity.
  - reflexivity.
  - vm_compute; reflexivity.
  - reflexivity.
Defined.

Lemma createSessionKey_expiry_witness :
  createSessionKey (H := Reference.platform) unrestricted (Some 3600%Z)
    (initialState, busyWorld)
  = (Returned hourKey,
     (initialState,
      snd (snd (createSessionKey (H := Reference.platform) unrestricted
                  (Some 3600%Z) (initialState, busyWorld)))))
  /\ validateSessionKeyPermissions hourKey (mkPublicKey 2) (Fin 50)
       (mkPublicKey 3) 1700003600002 = false
  /\ validateSessionKeyPermissions hourKey (mkPublicKey 2) (Fin 50)
       (mkPublicKey 3) 1700003600001 = true.
Proof.
  split; [vm_compute; reflexivity|].
  pose proof (createSessionKey_expiry (H := Reference.platform)
                unrestricted 3600 initialState initialState busyWorld
                (snd (snd (createSessionKey (H := Reference.platform)
                             unrestricted (Some 3600%Z)
                             (initialState, busyWorld))))
                hourKey) as Hexp.
  destruct Hexp as (_ & _ & _ & Hlate & Hearly).
  - vm_compute; reflexivity.
  - unfold safeInteger. vm_compute. discriminate.
  - unfold safeInteger. vm_compute. discriminate.
  - split.
    + apply Hlate. vm_compute. reflexivity.
    + apply Hearly; [reflexivity|]. vm_compute. discriminate.
Defined.

Lemma validateSessionKeyPermissions_monotone_witness :
  validateSessionKeyPermissions cappedKey (mkPublicKey 2) (Fin 50)
    (mkPublicKey 3) 1000 = true
  /\ (500 <= 1000)%Z
  /\ num_le (Fin 20) (Fin 50) = true
  /\ validateSessionKeyPermissions cappedKey (mkPublicKey 2) (Fin 20)
       (mkPublicKey 3) 500 = true.
Proof.
  split; [reflexivity|]. split; [lia|]. split; [reflexivity|].
  apply (validateSessionKeyPermissions_monotone cappedKey (mkPublicKey 2)
           (Fin 50) (Fin 20) (mkPublicKey 3) 1000 500).
  - reflexivity.
  - lia.
  - reflexivity.
Defined.

Lemma empty_whitelist_rejects_witness :
  allowedRecipients (permissions lockedKey) = Some []
  /\ validateSessionKeyPermissions lockedKey (mkPublicKey 2) (Fin 1)
       (mkPublicKey 3) 1000 = false.
Proof.
  split; [reflexivity|].
  apply (empty_whitelist_rejects lockedKey (mkPublicKey 2) (Fin 1)
           (mkPublicKey 3) 1000).
  left. reflexivity.
Defined.

Lemma validateWithPaymaster_sound_witness :
  Reference.PublicKey_of_string SOL_MINT = Returned solKey
  /\ exists v,
       validateWithPaymaster (H := Reference.platform) walletBase58
         sponsoringFetch (Returned "AQAB") (mkPublicKey 0) devnet
       = Returned v
       /\ (valid v = true \/ sponsorshipAvailable v = true ->
           exists txBase64 ok data,
             Returned "AQAB" = Returned txBase64
             /\ sponsoringFetch
                  (validateRequest walletBase58 txBase64 (mkPublicKey 0) devnet)
                = Returned (ok, data)
             /\ (valid v = true -> reply_valid data = Some true)
             /\ (sponsorshipAvailable v = true ->
                 reply_sponsorshipAvailable data = Some true)).
Proof.
  split; [vm_compute; reflexivity|].
  apply (validateWithPaymaster_sound (H := Reference.platform) walletBase58
           sponsoringFetch (Returned "AQAB") (mkPublicKey 0) solKey devnet).
  vm_compute; reflexivity.
Defined.

Lemma validateWithPaymaster_failure_witness :
  Reference.PublicKey_of_string SOL_MINT = Returned solKey
  /\ offlineFetch (validateRequest walletBase58 "AQAB" (mkPublicKey 0) devnet)
     = Thrown (Error "Network request failed")
  /\ validateWithPaymaster (H := Reference.platform) walletBase58
       offlineFetch (Returned "AQAB") (mkPublicKey 0) devnet
     = Returned (validationFailed solKey).
Proof.
  split; [vm_compute; reflexivity|]. split; [reflexivity|].
  apply (validateWithPaymaster_failure (H := Reference.platform) walletBase58
           offlineFetch (Returned "AQAB") (mkPublicKey 0) solKey devnet).
  - vm_compute; reflexivity.
  - right. left. exists "AQAB", (Error "Network request failed").
    split; reflexivity.
Defined.

Lemma history_all_or_nothing_witness :
  rpcLookupLimited "sigA" = Returned (Some "parsed sigA")
  /\ rpcLookupLimited "sigB" = Thrown (Error "429 Too Many Requests")
  /\ getWalletTransactionHistory rpcSignatures rpcLookupLimited
       (mkPublicKey 0) None None = [].
Proof.
  split; [reflexivity|]. split; [reflexivity|].
  apply (history_all_or_nothing rpcSignatures rpcLookupLimited
           (mkPublicKey 0) None None).
  right. exists ["sigA"; "sigB"; "sigC"], "sigB", (Error "429 Too Many Requests").
  split; [reflexivity|]. split; [right; left; reflexivity|reflexivity].
Defined.

Lemma history_found_witness :
  getWalletTransactionHistory rpcSignatures rpcLookup
    (mkPublicKey 0) (Some (Fin 0)) None
  = omap (fun sig => found (rpcLookup sig)) ["sigA"; "sigB"; "sigC"]
  /\ omap (fun sig => found (rpcLookup sig)) ["sigA"; "sigB"; "sigC"]
     = ["parsed sigA"; "parsed sigC"].
Proof.
  split; [|reflexivity].
  apply (history_found rpcSignatures rpcLookup (mkPublicKey 0)
           (Some (Fin 0)) None ["sigA"; "sigB"; "sigC"]).
  - reflexivity.
  - intros sig e _. unfold rpcLookup.
    destruct (String.eqb sig "sigB"); discriminate.
Defined.

Lemma truncateAddress_shape_witness :
  truncateAddress (Some SOL_MINT) (Some 4%Z) = "So11...1112"
  /\ exists p q,
       truncateAddress (Some SOL_MINT) (Some 4%Z) = p +:+ "..." +:+ q
       /\ String.length p = Nat.min (Z.to_nat 4) (String.length SOL_MINT)
       /\ String.length q = Nat.min (Z.to_nat 4) (String.length SOL_MINT)
       /\ (exists rest, SOL_MINT = p +:+ rest)
       /\ (exists front, SOL_MINT = front +:+ q)
       /\ String.length (truncateAddress (Some SOL_MINT) (Some 4%Z))
          = 2 * Nat.min (Z.to_nat 4) (String.length SOL_MINT) + 3.
Proof.
  split; [reflexivity|].
  apply (proj1 truncateAddress_shape SOL_MINT 4%Z).
  - discriminate.
  - lia.
Defined.

Lemma retry_first_success_witness :
  (Z.of_nat (length [Error "timeout"; Error "timeout"]) < 3)%Z
  /\ retry nap attempt 3 1000
       (mkTrial [Thrown (Error "timeout"); Thrown (Error "timeout");
                 Returned "ok"] 0 [])
     = (Returned "ok", mkTrial [] 3 [1000; 2000]%Z).
Proof.
  split; [simpl; lia|].
  apply (retry_first_success (T := string)
           [Error "timeout"; Error "timeout"] "ok" [] 3 1000 0 []).
  simpl. lia.
Defined.

Lemma retry_no_attempt_witness :
  (0 <= 0)%Z
  /\ retry nap attempt 0 1000 (mkTrial [Returned "ok"] 0 [])
     = (Thrown NonError, mkTrial [Returned "ok"] 0 []).
Proof.
  split; [lia|].
  apply (retry_no_attempt nap attempt 0 1000 (mkTrial [Returned "ok"] 0 [])).
  lia.
Defined.
